(** * chatbotRAG_ENT: the chunkers, the service adapters and the chat handlers

    A shallow embedding of [src/text_utils.py], [src/openai_handler.py],
    [src/pinecone_manager.py], [routes.py] and [flask_routes.py].

    Python integers are [Z], Python lists are [list], [str] is [string]
    (one [ascii] per code point below 256).  The tokenizer, the embedding
    service, the chat service and the vector store are external: they are
    taken as parameters, and every call that leaves the process is recorded
    in a trace. *)

From Stdlib Require Import ZArith String Ascii Bool Lia.
From Stdlib Require Import DecimalString DecimalZ.
From Stdlib Require DecimalPos.
From Stdlib Require Import List Sorted.
Import ListNotations.

Open Scope Z_scope.

Set Warnings "-register-all".

(* ================================================================== *)
(** ** Python sequences *)

Module PySeq.

Definition len {A : Type} (l : list A) : Z := Z.of_nat (List.length l).

(** What [list.__getitem__] does to one bound of a slice of a sequence
    of length [n]: a negative bound counts from the end, and the result
    is clamped to [0 .. n]. *)
Definition clamp_index (n i : Z) : Z :=
  if i <? 0 then Z.max (i + n) 0 else Z.min i n.

(** [l[lo:hi]] *)
Definition slice {A : Type} (l : list A) (lo hi : Z) : list A :=
  let n := len l in
  let lo' := clamp_index n lo in
  let hi' := clamp_index n hi in
  firstn (Z.to_nat (hi' - lo')) (skipn (Z.to_nat lo') l).

End PySeq.

(* ================================================================== *)
(** ** text_utils.py: the sliding-window chunker *)

(** A tiktoken encoding: tokens are integers. *)
Record tokenizer : Type := {
  encode : string -> list Z;
  decode : list Z -> string
}.

Module Chunker.

Import PySeq.

(** The variables the [while] loop of [split_text_into_chunks] updates. *)
Record state (A : Type) : Type := {
  current_pos : Z;
  chunks : list A
}.
Arguments current_pos {A} _.
Arguments chunks {A} _.

(** One trip through the loop either goes round again or leaves the
    loop (the condition is false, or one of the two [break]s is taken)
    with the list that [return chunks] then hands back. *)
Inductive outcome (A : Type) : Type :=
| Continue (s : state A)
| Return (chunks : list A).
Arguments Continue {A} _.
Arguments Return {A} _.

Section Loop.
Context {A : Type}.
(** [tokenizer.decode]; the loop is kept generic in what a window is
    decoded to, so that the windows themselves can be observed. *)
Variable decode_chunk : list Z -> A.
Variable tokens : list Z.
Variables max_tokens_per_chunk overlap_tokens : Z.

Definition loop_body (s : state A) : outcome A :=
  if current_pos s <? len tokens then
    let end_pos := Z.min (current_pos s + max_tokens_per_chunk) (len tokens) in
    let chunk_tokens := slice tokens (current_pos s) end_pos in
    let chunk_text := decode_chunk chunk_tokens in
    let chunks' := chunks s ++ [chunk_text] in
    if end_pos =? len tokens then Return chunks'
    else
      let current_pos' :=
        current_pos s + (max_tokens_per_chunk - overlap_tokens) in
      if current_pos' >=? len tokens then Return chunks'
      else Continue {| current_pos := current_pos'; chunks := chunks' |}
  else Return (chunks s).

(** The loop, with a bound on the number of trips: [None] when the
    bound is used up before the loop is left. *)
Fixpoint while_loop (fuel : nat) (s : state A) : option (list A) :=
  match fuel with
  | O => None
  | S fuel' =>
      match loop_body s with
      | Return cs => Some cs
      | Continue s' => while_loop fuel' s'
      end
  end.

Definition initial : state A := {| current_pos := 0; chunks := [] |}.

End Loop.

(** [split_text_into_chunks(text, max_tokens_per_chunk, overlap_tokens)] *)
Definition split_text_into_chunks (tok : tokenizer) (fuel : nat)
    (text : string) (max_tokens_per_chunk overlap_tokens : Z)
  : option (list string) :=
  let tokens := encode tok text in
  while_loop (decode tok) tokens max_tokens_per_chunk overlap_tokens
    fuel initial.

(** The token windows ([chunk_tokens]) that the loop decodes, in the
    order in which it appends them. *)
Definition token_windows (fuel : nat) (tokens : list Z)
    (max_tokens_per_chunk overlap_tokens : Z) : option (list (list Z)) :=
  while_loop (fun w => w) tokens max_tokens_per_chunk overlap_tokens
    fuel initial.

(** The window that starts at [pos]. *)
Definition window (tokens : list Z) (max_tokens_per_chunk pos : Z) : list Z :=
  slice tokens pos (Z.min (pos + max_tokens_per_chunk) (len tokens)).

(** [ceil(a / b)] for [b > 0]. *)
Definition ceil_div (a b : Z) : Z := - ((- a) / b).

(** Concatenation minus overlap: the first window whole, every later
    one without its first [overlap_tokens] tokens. *)
Definition drop_overlap (d overlap_tokens : Z) (ws : list (list Z)) : list Z :=
  match ws with
  | [] => []
  | w :: rest =>
      skipn (Z.to_nat d) w
        ++ concat (map (skipn (Z.to_nat overlap_tokens)) rest)
  end.

Definition reassemble (overlap_tokens : Z) (ws : list (list Z)) : list Z :=
  drop_overlap 0 overlap_tokens ws.

End Chunker.

(* ================================================================== *)
(** ** Python values, strings and exceptions *)

Module Py.

(** The exceptions the modelled code can meet.  [ApiError] stands for
    whatever a client library raises (connection refused, HTTP 4xx/5xx,
    a malformed request body, ...). *)
Inductive exn : Type :=
| NameError (name : string)
| ValueError (msg : string)
| TypeError (msg : string)
| KeyError (key : string)
| IndexError (msg : string)
| AttributeError (msg : string)
| ApiError (msg : string).

(** [str(e)] *)
Definition str (e : exn) : string :=
  match e with
  | NameError name => "name '" ++ name ++ "' is not defined"
  | KeyError key => "'" ++ key ++ "'"
  | ValueError msg | TypeError msg | IndexError msg
  | AttributeError msg | ApiError msg => msg
  end.

Inductive result (A : Type) : Type :=
| Ok (a : A)
| Raise (e : exn).
Arguments Ok {A} _.
Arguments Raise {A} _.

(** What [json.loads] builds: [None], [bool], [int], [str], [list],
    [dict] (numbers are the integers). *)
Inductive value : Type :=
| PyNone
| PyBool (b : bool)
| PyInt (n : Z)
| PyStr (s : string)
| PyList (l : list value)
| PyDict (items : list (string * value)).

(** [bool(v)] *)
Definition truthy (v : value) : bool :=
  match v with
  | PyNone => false
  | PyBool b => b
  | PyInt n => negb (n =? 0)
  | PyStr s => negb (s =? "")%string
  | PyList l => match l with [] => false | _ => true end
  | PyDict items => match items with [] => false | _ => true end
  end.

(** [d.get(key)] on the items of a dict. *)
Fixpoint dict_get (key : string) (items : list (string * value))
  : option value :=
  match items with
  | [] => None
  | (k, v) :: rest => if (k =? key)%string then Some v else dict_get key rest
  end.

Definition is_str (s : string) (v : value) : bool :=
  match v with PyStr s' => (s' =? s)%string | _ => false end.

(** [s in container], for a string [s]. *)
Definition contains (s : string) (container : value) : result bool :=
  match container with
  | PyDict items =>
      Ok (match dict_get s items with Some _ => true | None => false end)
  | PyList l => Ok (existsb (is_str s) l)
  | PyStr t =>
      Ok (match String.index 0 s t with Some _ => true | None => false end)
  | PyNone => Raise (TypeError "argument of type 'NoneType' is not iterable")
  | PyBool _ => Raise (TypeError "argument of type 'bool' is not iterable")
  | PyInt _ => Raise (TypeError "argument of type 'int' is not iterable")
  end.

(** [container[s]], for a string [s]. *)
Definition getitem (container : value) (s : string) : result value :=
  match container with
  | PyDict items =>
      match dict_get s items with
      | Some v => Ok v
      | None => Raise (KeyError s)
      end
  | PyList _ => Raise (TypeError "list indices must be integers or slices, not str")
  | PyStr _ => Raise (TypeError "string indices must be integers")
  | PyNone => Raise (TypeError "'NoneType' object is not subscriptable")
  | PyBool _ => Raise (TypeError "'bool' object is not subscriptable")
  | PyInt _ => Raise (TypeError "'int' object is not subscriptable")
  end.

End Py.

Module PyStr.

Open Scope string_scope.

Definition LF : string := String "010"%char EmptyString.

(** [c.isspace()], for a code point below 256. *)
Definition isspace (c : ascii) : bool :=
  let n := nat_of_ascii c in
  ((9 <=? n) && (n <=? 13) || (28 <=? n) && (n <=? 32)
   || (n =? 133) || (n =? 160))%nat.

(** [s.lstrip()] *)
Fixpoint lstrip (s : string) : string :=
  match s with
  | EmptyString => EmptyString
  | String c s' => if isspace c then lstrip s' else s
  end.

(** [s.rstrip()] *)
Fixpoint rstrip (s : string) : string :=
  match s with
  | EmptyString => EmptyString
  | String c s' =>
      let r := rstrip s' in
      if isspace c && (r =? "") then "" else String c r
  end.

(** [s.strip()] *)
Definition strip (s : string) : string := rstrip (lstrip s).

(** The scan of [s.split(sep)] for a non-empty [sep]: [skip] counts the
    characters of a separator just matched that are still to be passed
    over, [cur] is the part read so far. *)
Fixpoint split_scan (sep s : string) (skip : nat) (cur : string)
  : list string :=
  match s with
  | EmptyString => [cur]
  | String c s' =>
      match skip with
      | S k => split_scan sep s' k cur
      | O =>
          if prefix sep s
          then cur :: split_scan sep s' (String.length sep - 1) ""
          else split_scan sep s' 0 (cur ++ String c "")
      end
  end.

(** [s.split(sep)]: an empty separator is a [ValueError]. *)
Definition split (s sep : string) : Py.result (list string) :=
  if sep =? "" then Py.Raise (Py.ValueError "empty separator")
  else Py.Ok (split_scan sep s 0 "").

(** [sep.join(parts)], for parts that are all strings. *)
Fixpoint join (sep : string) (parts : list string) : string :=
  match parts with
  | [] => ""
  | [p] => p
  | p :: rest => p ++ sep ++ join sep rest
  end.

End PyStr.

(* ================================================================== *)
(** ** text_utils.py: the separator-based chunker *)

Module SeparatorChunker.

Import Py.
Open Scope string_scope.

(** [count_tokens(text)] *)
Definition count_tokens (tok : tokenizer) (text : string) : Z :=
  PySeq.len (encode tok text).

(** What the name [max_tokens_per_chunk] resolves to inside
    [split_text_by_separator].  The function's parameters are [text],
    [separator] and [min_length]; its body assigns [parts], [chunks],
    [current_chunk] and [part]; the module binds [tiktoken], [logging],
    [logger], [get_tokenizer], [count_tokens], [split_text_into_chunks]
    and [split_text_by_separator]; it is no builtin.  So the name is
    unbound. *)
Definition module_max_tokens_per_chunk : option Z := None.

(** The variables the [for] loop updates. *)
Record state : Type := {
  chunks : list string;
  current_chunk : string
}.

Section Body.
Variable tok : tokenizer.
(** The binding of the free name [max_tokens_per_chunk], if any. *)
Variable max_tokens_per_chunk : option Z.
Variable separator : string.

(** [current_chunk and count_tokens(current_chunk + separator + part)
    > max_tokens_per_chunk]: [and] evaluates its right operand only
    when the left one is true, and [>] evaluates the call before the
    name. *)
Definition over_budget (current_chunk part : string) : result bool :=
  if negb (current_chunk =? "") then
    let n := count_tokens tok (current_chunk ++ separator ++ part) in
    match max_tokens_per_chunk with
    | None => Raise (NameError "max_tokens_per_chunk")
    | Some budget => Ok (n >? budget)%Z
    end
  else Ok false.

Definition for_body (s : state) (part : string) : result state :=
  let part := PyStr.strip part in
  if part =? "" then Ok s
  else
    match over_budget (current_chunk s) part with
    | Raise e => Raise e
    | Ok true =>
        Ok {| chunks := (chunks s ++ [current_chunk s])%list;
              current_chunk := part |}
    | Ok false =>
        let current_chunk' :=
          if negb (current_chunk s =? "")
          then current_chunk s ++ separator
          else current_chunk s in
        Ok {| chunks := chunks s; current_chunk := current_chunk' ++ part |}
    end.

Fixpoint for_loop (s : state) (parts : list string) : result state :=
  match parts with
  | [] => Ok s
  | part :: rest =>
      match for_body s part with
      | Raise e => Raise e
      | Ok s' => for_loop s' rest
      end
  end.

Definition split_text_by_separator_in (text : string)
  : result (list string) :=
  match PyStr.split text separator with
  | Raise e => Raise e
  | Ok parts =>
      match for_loop {| chunks := []; current_chunk := "" |} parts with
      | Raise e => Raise e
      | Ok s =>
          if negb (current_chunk s =? "")
          then Ok (chunks s ++ [current_chunk s])%list
          else Ok (chunks s)
      end
  end.

End Body.

(** [split_text_by_separator(text, separator, min_length)] as the module
    has it; [min_length] is not used by the body. *)
Definition split_text_by_separator (tok : tokenizer) (text separator : string)
    (min_length : Z) : result (list string) :=
  split_text_by_separator_in tok module_max_tokens_per_chunk separator text.


End SeparatorChunker.

(* ================================================================== *)
(** ** The external services and the calls made to them *)

Module Rag.

Import Py.
Open Scope string_scope.

Section Services.

(** An embedding vector: a list of floats, opaque here. *)
Context {embedding : Type}.

(** One match of [results.matches]. *)
Record scored_vector : Type := {
  id : string;
  metadata : option (list (string * value))
}.

(** What the three remote services answer.  [pinecone_index] is
    [pc.Index(PINECONE_INDEX_NAME)]: [Raise] when the store cannot be
    reached. *)
Record services : Type := {
  embeddings_create : list value -> string -> result (list embedding);
  chat_completions_create : string -> string -> value -> result string;
  pinecone_index : result unit;
  index_query : embedding -> Z -> string -> result (list scored_vector)
}.

(** Every call that leaves the process. *)
Inductive call : Type :=
| EmbeddingsCreate (input : list value) (model : string)
| ChatCompletionsCreate (model system_prompt : string) (user : value)
| PineconeIndex
| IndexQuery (vector : embedding) (top_k : Z) (namespace : string).

Definition is_generation (c : call) : bool :=
  match c with ChatCompletionsCreate _ _ _ => true | _ => false end.

(** A computation: its result, or the exception it raises, and the
    calls it made, oldest first. *)
Definition M (A : Type) : Type := (result A * list call)%type.

Definition ret {A : Type} (a : A) : M A := (Ok a, []).
Definition raise {A : Type} (e : exn) : M A := (Raise e, []).

Definition bind {A B : Type} (m : M A) (k : A -> M B) : M B :=
  match m with
  | (Ok a, t) => let (r, t') := k a in (r, (t ++ t')%list)
  | (Raise e, t) => (Raise e, t)
  end.

(** [try: m  except Exception as e: handler(e)] *)
Definition try_except {A : Type} (m : M A) (handler : exn -> M A) : M A :=
  match m with
  | (Ok a, t) => (Ok a, t)
  | (Raise e, t) => let (r, t') := handler e in (r, (t ++ t')%list)
  end.

(** A remote call: recorded, then answered by the service. *)
Definition remote {A : Type} (c : call) (answer : result A) : M A :=
  (answer, [c]).

Definition lift {A : Type} (r : result A) : M A := (r, []).

Notation "x <- m ;; k" := (bind m (fun x => k))
  (at level 61, m at next level, right associativity).

Variable svc : services.

(** *** config.py *)
Definition EMBEDDING_MODEL : string := "text-embedding-3-small".
Definition GENERATION_MODEL : string := "gpt-4o".

(** *** openai_handler.py *)

(** [get_embeddings(texts, model)], for a list [texts] (the
    [isinstance] test then changes nothing). *)
Definition get_embeddings (texts : list value) : M (list embedding) :=
  match texts with
  | [] => ret []
  | _ =>
      try_except
        (remote (EmbeddingsCreate texts EMBEDDING_MODEL)
           (embeddings_create svc texts EMBEDDING_MODEL))
        (fun e => raise e)
  end.

(** [sep.join(context)]: an item that is not a [str] is a [TypeError]. *)
Fixpoint strings_of (context : list value) : result (list string) :=
  match context with
  | [] => Ok []
  | PyStr s :: rest =>
      match strings_of rest with
      | Ok l => Ok (s :: l)
      | Raise e => Raise e
      end
  | _ :: _ => Raise (TypeError "sequence item: expected str instance")
  end.

Definition context_separator : string :=
  PyStr.LF ++ PyStr.LF ++ "---" ++ PyStr.LF ++ PyStr.LF.

Definition system_prompt (context_str : string) : string :=
  PyStr.LF
  ++ "    You are a helpful AI assistant using a Retrieval Augmented Generation (RAG) system." ++ PyStr.LF
  ++ "    Answer the user's question based ONLY on the provided context. " ++ PyStr.LF
  ++ "    If the context doesn't contain enough information to answer the question, " ++ PyStr.LF
  ++ "    say " ++ String "034"%char "I don't have enough information to answer that question."
  ++ String "034"%char PyStr.LF
  ++ "    Don't make up information or use knowledge outside the provided context." ++ PyStr.LF
  ++ "    Always cite your sources from the context if possible." ++ PyStr.LF
  ++ "    " ++ PyStr.LF
  ++ "    Context:" ++ PyStr.LF
  ++ "    " ++ context_str ++ PyStr.LF
  ++ "    ".

(** [get_chat_completion(query, context, model)] *)
Definition get_chat_completion (query : value) (context : list value)
  : M string :=
  parts <- lift (strings_of context) ;;
  let context_str := PyStr.join context_separator parts in
  try_except
    (remote
       (ChatCompletionsCreate GENERATION_MODEL (system_prompt context_str) query)
       (chat_completions_create svc GENERATION_MODEL
          (system_prompt context_str) query))
    (fun e => raise e).

(** *** pinecone_manager.py *)

(** [get_index()]: [None] when [pc.Index] raises. *)
Definition get_index : M (option unit) :=
  try_except
    (index <- remote PineconeIndex (pinecone_index svc) ;; ret (Some index))
    (fun _ => ret None).

(** [get_similar_documents(query_embedding, top_k, namespace)] *)
Definition get_similar_documents (query_embedding : embedding) (top_k : Z)
    (namespace : string) : M (list scored_vector) :=
  index <- get_index ;;
  match index with
  | None => ret []
  | Some _ =>
      try_except
        (remote (IndexQuery query_embedding top_k namespace)
           (index_query svc query_embedding top_k namespace))
        (fun _ => ret [])
  end.

(** *** The HTTP responses *)

Inductive body : Type :=
| ChatResponse (answer : string) (retrieved_context : list value)
| ErrorBody (field message : string).

Record response : Type := {
  status : Z;
  content : body
}.

Definition fallback_answer : string :=
  "I couldn't find any relevant information to answer your question.".

(** [embeddings[0]] *)
Definition first_embedding (embeddings : list embedding) : result embedding :=
  match embeddings with
  | e :: _ => Ok e
  | [] => Raise (IndexError "list index out of range")
  end.

(** *** routes.py (FastAPI) *)

(** [doc['metadata']['text']] *)
Definition metadata_text (doc : scored_vector) : result value :=
  match metadata doc with
  | None => Raise (TypeError "'NoneType' object is not subscriptable")
  | Some items => getitem (PyDict items) "text"
  end.

Fixpoint collect {A B : Type} (f : A -> result B) (l : list A)
  : result (list B) :=
  match l with
  | [] => Ok []
  | a :: rest =>
      match f a with
      | Raise e => Raise e
      | Ok b =>
          match collect f rest with
          | Raise e => Raise e
          | Ok bs => Ok (b :: bs)
          end
      end
  end.

(** [chat(query)]: the handler behind [POST /api/chat]; a raised
    [HTTPException(status_code=500, detail=...)] is the 500 response
    with a [detail] field. *)
Definition chat (question : string) : M response :=
  try_except
    (embeddings <- get_embeddings [PyStr question] ;;
     query_embedding <- lift (first_embedding embeddings) ;;
     similar_docs <- get_similar_documents query_embedding 5 "" ;;
     match similar_docs with
     | [] =>
         ret {| status := 200;
                content := ChatResponse fallback_answer [] |}
     | _ =>
         context_texts <- lift (collect metadata_text similar_docs) ;;
         answer <- get_chat_completion (PyStr question) context_texts ;;
         ret {| status := 200;
                content := ChatResponse answer context_texts |}
     end)
    (fun e =>
       ret {| status := 500;
              content := ErrorBody "detail" ("An error occurred: " ++ str e) |}).

(** *** flask_routes.py *)

(** [doc.metadata.get('text', '')] *)
Definition metadata_get_text (doc : scored_vector) : result value :=
  match metadata doc with
  | None =>
      Raise (AttributeError "'NoneType' object has no attribute 'get'")
  | Some items =>
      match dict_get "text" items with
      | Some v => Ok v
      | None => Ok (PyStr "")
      end
  end.

(** [not data or 'question' not in data] *)
Definition question_missing (data : value) : result bool :=
  if negb (truthy data) then Ok true
  else
    match contains "question" data with
    | Raise e => Raise e
    | Ok b => Ok (negb b)
    end.

(** [chat()]: the handler behind [POST /api/chat]; [get_json] is what
    [request.get_json()] gives, or the exception it raises on a body
    that is not JSON. *)
Definition flask_chat (get_json : result value) : M response :=
  try_except
    (data <- lift get_json ;;
     missing <- lift (question_missing data) ;;
     if (missing : bool) then
       ret {| status := 400;
              content := ErrorBody "error" "Missing question in request" |}
     else
       question <- lift (getitem data "question") ;;
       embeddings <- get_embeddings [question] ;;
       query_embedding <- lift (first_embedding embeddings) ;;
       similar_docs <- get_similar_documents query_embedding 5 "" ;;
       match similar_docs with
       | [] =>
           ret {| status := 200;
                  content := ChatResponse fallback_answer [] |}
       | _ =>
           context_texts <- lift (collect metadata_get_text similar_docs) ;;
           answer <- get_chat_completion question context_texts ;;
           ret {| status := 200;
                  content := ChatResponse answer context_texts |}
       end)
    (fun e =>
       ret {| status := 500;
              content := ErrorBody "error" ("An error occurred: " ++ str e) |}).

(** *** Vocabulary of the claims *)

(** The two fixed responses of the handlers. *)
Definition fallback_response : response :=
  {| status := 200; content := ChatResponse fallback_answer [] |}.

Definition missing_question_response : response :=
  {| status := 400;
     content := ErrorBody "error" "Missing question in request" |}.

(** The request body has no question: it is empty ([None], [{}], ...)
    or it is an object without the key. *)
Definition lacks_question (data : value) : Prop :=
  truthy data = false \/
  exists items, data = PyDict items /\ dict_get "question" items = None.

(** The vector store is unreachable, or its query call errors. *)
Definition store_fails (e : embedding) : Prop :=
  (exists err, pinecone_index svc = Raise err) \/
  (exists err, index_query svc e 5 "" = Raise err).

(** The status code a handler answers with. *)
Definition status_of (m : M response) : option Z :=
  match fst m with
  | Ok r => Some (status r)
  | Raise _ => None
  end.

End Services.

Arguments scored_vector : clear implicits.
Arguments services : clear implicits.
Arguments call : clear implicits.

End Rag.

(* ================================================================== *)
(** ** pinecone_manager.py (index management), the health checks and
       ingest_data.py *)

Module Ops.

Import Py.
Open Scope string_scope.

(** [range(start, stop, step)] as the list it iterates over. *)
Definition py_range (start stop step : Z) : result (list Z) :=
  if (step =? 0)%Z then Raise (ValueError "range() arg 3 must not be zero")
  else
    let n :=
      (if 0 <? step
       then (if start <? stop then (stop - start - 1) / step + 1 else 0)
       else (if stop <? start then (start - stop - 1) / (- step) + 1 else 0))%Z in
    Ok (map (fun k => start + Z.of_nat k * step) (seq 0 (Z.to_nat n))).

(** [str(n)] for an integer. *)
Definition str_int (n : Z) : string := NilZero.string_of_int (Z.to_int n).

(** The values config.py reads from the environment. *)
Record config : Type := {
  PINECONE_INDEX_NAME : string;
  PINECONE_CLOUD : string;
  PINECONE_REGION : string;
  EMBEDDING_MODEL_DIMENSION : Z
}.

(** The command line of ingest_data.py, parsed. *)
Record arguments : Type := {
  file : string;
  chunk_size : Z;
  overlap : Z;
  reset : bool
}.

(** The body of both [/api/health] answers. *)
Record health : Type := {
  status : string;
  message : string
}.

Section World.

Context {embedding : Type}.

(** One record of an upsert. *)
Record vector_record : Type := {
  id : string;
  values : embedding;
  metadata : list (string * value)
}.

(** Everything the process does to the outside, in order.  Durations are
    in milliseconds. *)
Inductive event : Type :=
| Remote (c : Rag.call embedding)
| ListIndexes
| CreateIndex (name : string) (dimension : Z) (metric cloud region : string)
| DeleteIndex (name : string)
| DescribeIndexStats
| Upsert (vectors : list vector_record)
| Sleep (milliseconds : Z)
| PathExists (path : string)
| ReadFile (path : string).

(** What the outside answers at one moment. *)
Record environment : Type := {
  api : Rag.services embedding;
  list_indexes : result (list string);
  create_index : string -> Z -> string -> string -> string -> result unit;
  pc_delete_index : string -> result unit;
  describe_index_stats : result value;
  upsert : list vector_record -> result unit;
  path_exists : string -> bool;
  read_text : string -> result string
}.

(** The outside: its answers may depend on everything done so far. *)
Definition world : Type := list event -> environment.

(** A computation maps the history to its result, or the exception it
    raises, and the extended history; [None] when a loop in it used up
    its bound. *)
Definition IO (A : Type) : Type :=
  list event -> option (result A * list event).

Definition ret {A : Type} (a : A) : IO A := fun h => Some (Ok a, h).
Definition raise {A : Type} (e : exn) : IO A := fun h => Some (Raise e, h).
Definition lift {A : Type} (r : result A) : IO A := fun h => Some (r, h).

Definition bind {A B : Type} (m : IO A) (k : A -> IO B) : IO B :=
  fun h =>
    match m h with
    | Some (Ok a, h') => k a h'
    | Some (Raise e, h') => Some (Raise e, h')
    | None => None
    end.

(** [try: m  except Exception as e: handler(e)] *)
Definition try_except {A : Type} (m : IO A) (handler : exn -> IO A) : IO A :=
  fun h =>
    match m h with
    | Some (Ok a, h') => Some (Ok a, h')
    | Some (Raise e, h') => handler e h'
    | None => None
    end.

Notation "x <- m ;; k" := (bind m (fun x => k))
  (at level 61, m at next level, right associativity).

Variable w : world.
Variable cfg : config.

(** One interaction with the outside: answered from the history so far,
    then recorded. *)
Definition perform {A : Type} (ev : event) (answer : environment -> result A)
  : IO A :=
  fun h => Some (answer (w h), (h ++ [ev])%list).

(** [time.sleep] *)
Definition sleep (milliseconds : Z) : IO unit :=
  fun h => Some (Ok tt, (h ++ [Sleep milliseconds])%list).

(** A function of openai_handler.py or pinecone_manager.py modelled in
    [Rag], run against the services as they are now. *)
Definition rag {A : Type} (f : Rag.services embedding -> Rag.M A) : IO A :=
  fun h =>
    let (r, t) := f (api (w h)) in
    Some (r, (h ++ map Remote t)%list).

(** *** pinecone_manager.py *)

(** [NAME in existing_indexes] *)
Definition listed (name : string) (existing_indexes : list string) : bool :=
  existsb (String.eqb name) existing_indexes.

(** [init_pinecone()] *)
Definition init_pinecone : IO unit :=
  existing_indexes <- perform ListIndexes list_indexes ;;
  _ <- (if negb (listed (PINECONE_INDEX_NAME cfg) existing_indexes) then
          _ <- perform
                 (CreateIndex (PINECONE_INDEX_NAME cfg)
                    (EMBEDDING_MODEL_DIMENSION cfg) "cosine"
                    (PINECONE_CLOUD cfg) (PINECONE_REGION cfg))
                 (fun env =>
                    create_index env (PINECONE_INDEX_NAME cfg)
                      (EMBEDDING_MODEL_DIMENSION cfg) "cosine"
                      (PINECONE_CLOUD cfg) (PINECONE_REGION cfg)) ;;
          sleep 10000
        else ret tt) ;;
  perform (Remote Rag.PineconeIndex) (fun env => Rag.pinecone_index (api env)).

(** [get_index_stats()] *)
Definition get_index_stats : IO (option value) :=
  index <- rag Rag.get_index ;;
  match index with
  | None => ret None
  | Some _ =>
      try_except
        (stats <- perform DescribeIndexStats describe_index_stats ;;
         ret (Some stats))
        (fun _ => ret None)
  end.

(** [delete_index()] *)
Definition delete_index : IO unit :=
  try_except
    (existing_indexes <- perform ListIndexes list_indexes ;;
     if listed (PINECONE_INDEX_NAME cfg) existing_indexes then
       perform (DeleteIndex (PINECONE_INDEX_NAME cfg))
         (fun env => pc_delete_index env (PINECONE_INDEX_NAME cfg))
     else ret tt)
    (fun _ => ret tt).

(** *** routes.py and flask_routes.py: [health_check()] (the same body in
        both; Flask wraps the dict in [jsonify]) *)
Definition health_check : IO health :=
  try_except
    (index <- rag Rag.get_index ;;
     match index with
     | None =>
         ret {| status := "error"; message := "Pinecone index not available" |}
     | Some _ =>
         ret {| status := "ok"; message := "Service is healthy" |}
     end)
    (fun e =>
       ret {| status := "error";
              message := "Service health check failed: " ++ str e |}).

(** *** ingest_data.py *)

(** [read_file(file_path)] *)
Definition read_file (file_path : string) : IO string :=
  try_except
    (perform (ReadFile file_path) (fun env => read_text env file_path))
    (fun e => raise e).

(** The element for [j] of the comprehension that builds
    [batch_vectors]. *)
Definition batch_vector (i : Z) (batch_chunks : list string)
    (embeddings : list embedding) (j : nat) : result vector_record :=
  match nth_error embeddings j with
  | None => Raise (IndexError "list index out of range")
  | Some e =>
      match nth_error batch_chunks j with
      | None => Raise (IndexError "list index out of range")
      | Some c =>
          Ok {| id := "chunk_" ++ str_int (i + Z.of_nat j);
                values := e;
                metadata := [("text", PyStr c);
                             ("chunk_id", PyInt (i + Z.of_nat j))] |}
      end
  end.

(** One trip through the [for] loop of [ingest_text]; [vectors] is the
    list the loop extends. *)
Definition ingest_batch (chunks : list string) (batch_size : Z)
    (vectors : list vector_record) (i : Z) : IO (list vector_record) :=
  let batch_chunks := PySeq.slice chunks i (i + batch_size) in
  embeddings <- rag (fun svc => Rag.get_embeddings svc (map PyStr batch_chunks)) ;;
  batch_vectors <-
    lift (Rag.collect (batch_vector i batch_chunks embeddings)
            (seq 0 (List.length batch_chunks))) ;;
  let vectors' := (vectors ++ batch_vectors)%list in
  _ <- perform (Upsert batch_vectors) (fun env => upsert env batch_vectors) ;;
  _ <- sleep 500 ;;
  ret vectors'.

Fixpoint for_each {S : Type} (body : S -> Z -> IO S) (s : S) (items : list Z)
  : IO S :=
  match items with
  | [] => ret s
  | i :: rest => s' <- body s i ;; for_each body s' rest
  end.

(** [ingest_text] from the chunks on. *)
Definition ingest_chunks (chunks : list string) (batch_size : Z) : IO Z :=
  _ <- init_pinecone ;;
  starts <- lift (py_range 0 (PySeq.len chunks) batch_size) ;;
  vectors <- for_each (ingest_batch chunks batch_size) [] starts ;;
  ret (PySeq.len vectors).

(** [ingest_text(text, chunk_size, overlap, batch_size)] *)
Definition ingest_text (tok : tokenizer) (fuel : nat) (text : string)
    (chunk_size overlap batch_size : Z) : IO Z :=
  fun h =>
    match Chunker.split_text_into_chunks tok fuel text chunk_size overlap with
    | None => None
    | Some chunks => ingest_chunks chunks batch_size h
    end.

(** [main()], from the parsed arguments on. *)
Definition main (tok : tokenizer) (fuel : nat) (args : arguments) : IO unit :=
  try_except
    (found <- perform (PathExists (file args))
                (fun env => Ok (path_exists env (file args))) ;;
     if negb found then ret tt
     else
       _ <- (if reset args then _ <- delete_index ;; sleep 10000 else ret tt) ;;
       text <- read_file (file args) ;;
       _ <- ingest_text tok fuel text (chunk_size args) (overlap args) 10 ;;
       ret tt)
    (fun _ => ret tt).


Definition is_upsert (ev : event) : bool :=
  match ev with Upsert _ => true | _ => false end.

Definition is_delete (ev : event) : bool :=
  match ev with DeleteIndex _ => true | _ => false end.

Definition is_create (ev : event) : bool :=
  match ev with CreateIndex _ _ _ _ _ => true | _ => false end.

End World.

Arguments vector_record : clear implicits.
Arguments event : clear implicits.
Arguments environment : clear implicits.
Arguments world : clear implicits.

(** The record [ingest_text] builds for chunk number [n]. *)
Definition chunk_record {embedding : Type} (n : Z) (text : string)
    (e : embedding) : vector_record embedding :=
  {| id := "chunk_" ++ str_int n;
     values := e;
     metadata := [("text", PyStr text); ("chunk_id", PyInt n)] |}.

(** The records for the chunks numbered from [n] on, with their
    embeddings. *)
Fixpoint chunk_records {embedding : Type} (n : Z) (chunks : list string)
    (embeddings : list embedding) : list (vector_record embedding) :=
  match chunks, embeddings with
  | c :: chunks', e :: embeddings' =>
      chunk_record n c e :: chunk_records (n + 1) chunks' embeddings'
  | _, _ => []
  end.


(** Whenever the computation ends, it has only added events to the
    history, all of them accepted by [allowed]. *)
Definition only_adds {embedding A : Type} (allowed : event embedding -> bool)
    (m : @IO embedding A) : Prop :=
  forall h r h',
    m h = Some (r, h') ->
    exists new, h' = (h ++ new)%list /\ forallb allowed new = true.

(** Events that leave the store as it is. *)
Definition reads_only {embedding : Type} (ev : event embedding) : bool :=
  negb (is_create ev || is_delete ev || is_upsert ev).

Definition keeps_index {embedding : Type} (ev : event embedding) : bool :=
  negb (is_delete ev).



End Ops.

(** ** Vocabulary for the handlers' answers *)

Module Answers.

Import Py Rag.
Open Scope string_scope.

(** The 200 answer with a generated text and the context used. *)
Definition answered (answer : string) (context : list value) : response :=
  {| status := 200; content := ChatResponse answer context |}.

(** The 500 answer for the exception [e]; [field] is [detail] for the
    FastAPI handler and [error] for the Flask one. *)
Definition server_error (field : string) (e : exn) : response :=
  {| status := 500;
     content := ErrorBody field ("An error occurred: " ++ str e) |}.

(** The answer once [get_chat_completion] has returned or raised. *)
Definition after_generation (field : string) (generated : result string)
    (context : list value) : response :=
  match generated with
  | Ok answer => answered answer context
  | Raise e => server_error field e
  end.

(** [doc.metadata.get('text', '')] on the items of the metadata. *)
Definition text_or_empty (items : list (string * value)) : value :=
  match dict_get "text" items with
  | Some v => v
  | None => PyStr ""
  end.

End Answers.

(** ** Vocabulary for the chunker's windows *)

Module Windows.

(** The starting positions [0, step, 2 * step, ...] of [k] windows. *)
Definition window_starts (step : Z) (k : nat) : list Z :=
  map (fun i => Z.of_nat i * step) (seq 0 k).

End Windows.

(* ================================================================== *)
(** ** Sample data *)

Module Samples.

Open Scope string_scope.

(** A tokenizer with one token per character. *)
Definition char_tokenizer : tokenizer := {|
  encode := fun s =>
    map (fun c => Z.of_nat (nat_of_ascii c)) (list_ascii_of_string s);
  decode := fun ts =>
    string_of_list_ascii (map (fun t => ascii_of_nat (Z.to_nat t)) ts)
|}.

(** A document of [n] tokens under [char_tokenizer]. *)
Definition document (n : nat) : string :=
  string_of_list_ascii (repeat "a"%char n).

(** ["a\n\nb\n\nc"] and ["\n\n"] *)
Definition paragraph_separator : string := PyStr.LF ++ PyStr.LF.
Definition abc : string :=
  "a" ++ paragraph_separator ++ "b" ++ paragraph_separator ++ "c".

(** Services that answer every call; the store holds nothing similar. *)
Definition no_match : Rag.services (list Z) := {|
  Rag.embeddings_create := fun texts _ => Py.Ok (map (fun _ => [1; 2; 3]) texts);
  Rag.chat_completions_create := fun _ _ _ => Py.Ok "an answer";
  Rag.pinecone_index := Py.Ok tt;
  Rag.index_query := fun _ _ _ => Py.Ok []
|}.

Definition stored_chunk : Rag.scored_vector := {|
  Rag.id := "chunk_0";
  Rag.metadata := Some [("text", Py.PyStr "some text"); ("chunk_id", Py.PyInt 0)]
|}.

(** The vector store cannot be reached. *)
Definition store_unreachable : Rag.services (list Z) := {|
  Rag.embeddings_create := fun texts _ => Py.Ok (map (fun _ => [1; 2; 3]) texts);
  Rag.chat_completions_create := fun _ _ _ => Py.Ok "an answer";
  Rag.pinecone_index := Py.Raise (Py.ApiError "connection refused");
  Rag.index_query := fun _ _ _ => Py.Ok [stored_chunk]
|}.

(** The vector store is reached and its query call errors. *)
Definition query_errors : Rag.services (list Z) := {|
  Rag.embeddings_create := fun texts _ => Py.Ok (map (fun _ => [1; 2; 3]) texts);
  Rag.chat_completions_create := fun _ _ _ => Py.Ok "an answer";
  Rag.pinecone_index := Py.Ok tt;
  Rag.index_query := fun _ _ _ => Py.Raise (Py.ApiError "internal error")
|}.

(** The call by which the question ["q"] is embedded. *)
Definition question_embedding_call : Rag.call (list Z) :=
  Rag.EmbeddingsCreate [Py.PyStr "q"] Rag.EMBEDDING_MODEL.

End Samples.

(** ** Sample worlds *)

Module OpsSamples.

Import Py.
Open Scope string_scope.

Definition sample_config : Ops.config := {|
  Ops.PINECONE_INDEX_NAME := "rag-chatbot";
  Ops.PINECONE_CLOUD := "aws";
  Ops.PINECONE_REGION := "us-east-1";
  Ops.EMBEDDING_MODEL_DIMENSION := 1536
|}.

(** Whether the index exists after the history [h], if it did not before:
    the last creation or deletion decides. *)
Fixpoint index_exists (before : bool) (h : list (Ops.event (list Z))) : bool :=
  match h with
  | [] => before
  | Ops.CreateIndex _ _ _ _ _ :: rest => index_exists true rest
  | Ops.DeleteIndex _ :: rest => index_exists false rest
  | _ :: rest => index_exists before rest
  end.

(** A store that starts without the index; every call succeeds, and the
    one file that exists holds a 25-token document. *)
Definition fresh_world : Ops.world (list Z) := fun h => {|
  Ops.api := Samples.no_match;
  Ops.list_indexes :=
    Ok (if index_exists false h then ["rag-chatbot"] else []);
  Ops.create_index := fun _ _ _ _ _ => Ok tt;
  Ops.pc_delete_index := fun _ => Ok tt;
  Ops.describe_index_stats := Ok (PyDict [("total_vector_count", PyInt 0)]);
  Ops.upsert := fun _ => Ok tt;
  Ops.path_exists := fun path => path =? "data/knowledge_base.txt";
  Ops.read_text := fun _ => Ok (Samples.document 25)
|}.

(** The same store, whose second upsert fails. *)
Definition second_upsert_fails : Ops.world (list Z) := fun h => {|
  Ops.api := Samples.no_match;
  Ops.list_indexes :=
    Ok (if index_exists false h then ["rag-chatbot"] else []);
  Ops.create_index := fun _ _ _ _ _ => Ok tt;
  Ops.pc_delete_index := fun _ => Ok tt;
  Ops.describe_index_stats := Ok (PyDict [("total_vector_count", PyInt 0)]);
  Ops.upsert := fun _ =>
    if existsb Ops.is_upsert h then Raise (ApiError "rate limited") else Ok tt;
  Ops.path_exists := fun path => path =? "data/knowledge_base.txt";
  Ops.read_text := fun _ => Ok (Samples.document 25)
|}.

End OpsSamples.

(** ** More sample services *)

Module MoreSamples.

Import Py.
Open Scope string_scope.

(** A match whose metadata has no text. *)
Definition bare_chunk : Rag.scored_vector := {|
  Rag.id := "chunk_1";
  Rag.metadata := Some [("chunk_id", PyInt 1)]
|}.

(** The store holds one similar chunk. *)
Definition one_match : Rag.services (list Z) := {|
  Rag.embeddings_create := fun texts _ => Ok (map (fun _ => [1; 2; 3]) texts);
  Rag.chat_completions_create := fun _ _ _ => Ok "an answer";
  Rag.pinecone_index := Ok tt;
  Rag.index_query := fun _ _ _ => Ok [Samples.stored_chunk]
|}.

(** The store holds two similar chunks, the second without a text. *)
Definition bare_match : Rag.services (list Z) := {|
  Rag.embeddings_create := fun texts _ => Ok (map (fun _ => [1; 2; 3]) texts);
  Rag.chat_completions_create := fun _ _ _ => Ok "an answer";
  Rag.pinecone_index := Ok tt;
  Rag.index_query := fun _ _ _ => Ok [Samples.stored_chunk; bare_chunk]
|}.

(** The embedding service fails. *)
Definition embedding_down : Rag.services (list Z) := {|
  Rag.embeddings_create := fun _ _ => Raise (ApiError "rate limit exceeded");
  Rag.chat_completions_create := fun _ _ _ => Ok "an answer";
  Rag.pinecone_index := Ok tt;
  Rag.index_query := fun _ _ _ => Ok [Samples.stored_chunk]
|}.

(** The embedding service answers with no vector. *)
Definition embedding_empty : Rag.services (list Z) := {|
  Rag.embeddings_create := fun _ _ => Ok [];
  Rag.chat_completions_create := fun _ _ _ => Ok "an answer";
  Rag.pinecone_index := Ok tt;
  Rag.index_query := fun _ _ _ => Ok [Samples.stored_chunk]
|}.

(** The query of the sample requests. *)
Definition question_query : Rag.call (list Z) :=
  Rag.IndexQuery [1; 2; 3] 5 "".

(** Command lines. *)
Definition plain_run : Ops.arguments := {|
  Ops.file := "data/knowledge_base.txt";
  Ops.chunk_size := 10;
  Ops.overlap := 2;
  Ops.reset := false
|}.

End MoreSamples.

(* ================================================================== *)
(** * Facts *)

(** ** Slices and ceilings *)

Module PySeqFacts.

Import PySeq.

Lemma len_nonneg {A : Type} (l : list A) : 0 <= len l.
Proof. unfold len; lia. Qed.

Lemma slice_inside {A : Type} (l : list A) (lo hi : Z) :
  0 <= lo -> lo <= hi -> hi <= len l ->
  slice l lo hi = firstn (Z.to_nat (hi - lo)) (skipn (Z.to_nat lo) l).
Proof.
  intros Hlo Hle Hhi. unfold slice, clamp_index.
  destruct (Z.ltb_spec lo 0); [lia|].
  destruct (Z.ltb_spec hi 0); [lia|].
  now rewrite !Z.min_l by lia.
Qed.

Lemma slice_length_le {A : Type} (l : list A) (lo m : Z) :
  0 < m ->
  len (slice l lo (Z.min (lo + m) (len l))) <= m.
Proof.
  intros Hm. unfold len at 1. unfold slice.
  pose proof (len_nonneg l) as Hn.
  set (n := len l) in *.
  pose proof (firstn_le_length
                (Z.to_nat (clamp_index n (Z.min (lo + m) n) - clamp_index n lo))
                (skipn (Z.to_nat (clamp_index n lo)) l)) as Hf.
  assert (clamp_index n (Z.min (lo + m) n) - clamp_index n lo <= m).
  { unfold clamp_index.
    destruct (Z.ltb_spec (Z.min (lo + m) n) 0), (Z.ltb_spec lo 0); lia. }
  lia.
Qed.

Lemma skipn_all_Z {A : Type} (l : list A) (k : Z) :
  len l <= k -> skipn (Z.to_nat k) l = [].
Proof. intros H. apply skipn_all2. unfold len in H. lia. Qed.

(** Dropping [d] items of a [k]-item window at [p] and going on after
    the window is going on from [p + d]. *)
Lemma skipn_window_app {A : Type} (l : list A) (p k d : nat) :
  (d <= k)%nat ->
  (skipn d (firstn k (skipn p l)) ++ skipn (p + k) l)%list = skipn (p + d) l.
Proof.
  intros Hd.
  rewrite skipn_firstn_comm.
  replace (skipn (p + k) l) with (skipn (k - d) (skipn d (skipn p l))).
  - rewrite firstn_skipn. rewrite skipn_skipn. f_equal. lia.
  - rewrite !skipn_skipn. f_equal. lia.
Qed.

End PySeqFacts.

(** ** The sliding-window chunker *)

Module ChunkerFacts.

Import PySeq PySeqFacts Chunker.

Lemma ceil_div_bounds (a b : Z) :
  0 < b -> b * (ceil_div a b - 1) < a <= b * ceil_div a b.
Proof.
  intros Hb. unfold ceil_div.
  pose proof (Z.div_mod (- a) b) as Hdm.
  pose proof (Z.mod_pos_bound (- a) b Hb) as Hr.
  nia.
Qed.

Lemma ceil_div_unique (a b q : Z) :
  0 < b -> b * (q - 1) < a <= b * q -> ceil_div a b = q.
Proof.
  intros Hb Hq. pose proof (ceil_div_bounds a b Hb) as H. nia.
Qed.

Section Loop.
Context {A : Type}.
Variable d : list Z -> A.
Variable tokens : list Z.
Variables m o : Z.

Let N := len tokens.
Let body := loop_body d tokens m o.
Let loop := while_loop d tokens m o.

Lemma loop_body_continue (s s' : state A) :
  body s = Continue s' ->
  current_pos s < N /\ current_pos s + m < N /\
  current_pos s + (m - o) < N /\
  s' = {| current_pos := current_pos s + (m - o);
          chunks := chunks s ++ [d (window tokens m (current_pos s))] |}.
Proof.
  unfold body, loop_body, window. fold N.
  destruct (Z.ltb_spec (current_pos s) N); [|discriminate].
  destruct (Z.eqb_spec (Z.min (current_pos s + m) N) N); [discriminate|].
  destruct (Z.geb_spec (current_pos s + (m - o)) N); [discriminate|].
  intros [= <-]. repeat split; lia.
Qed.

Lemma loop_body_return (s : state A) (cs : list A) :
  body s = Return cs ->
  (N <= current_pos s /\ cs = chunks s) \/
  (current_pos s < N /\
   (N <= current_pos s + m \/ N <= current_pos s + (m - o)) /\
   cs = chunks s ++ [d (window tokens m (current_pos s))]).
Proof.
  unfold body, loop_body, window. fold N.
  destruct (Z.ltb_spec (current_pos s) N).
  - destruct (Z.eqb_spec (Z.min (current_pos s + m) N) N).
    + intros [= <-]. right. repeat split; auto; lia.
    + destruct (Z.geb_spec (current_pos s + (m - o)) N); [|discriminate].
      intros [= <-]. right. repeat split; auto; lia.
  - intros [= <-]. left. split; auto.
Qed.

(** The loop is left as soon as the window reaches the end. *)
Lemma loop_body_at_end (s : state A) :
  current_pos s < N -> N <= current_pos s + m ->
  body s = Return (chunks s ++ [d (window tokens m (current_pos s))]).
Proof.
  intros H1 H2. unfold body, loop_body, window. fold N.
  destruct (Z.ltb_spec (current_pos s) N); [|lia].
  destruct (Z.eqb_spec (Z.min (current_pos s + m) N) N); [reflexivity|lia].
Qed.

(** With a positive step the distance to the end is a bound on the
    number of trips. *)
Lemma loop_returns (fuel : nat) :
  0 < m - o ->
  forall s, (Z.to_nat (N - current_pos s) < fuel)%nat ->
  exists cs, loop fuel s = Some cs.
Proof.
  intros Hstep. induction fuel as [|fuel IH]; intros s Hf; [lia|].
  unfold loop. simpl. fold body.
  destruct (body s) as [s'|cs] eqn:E.
  - apply loop_body_continue in E as (H1 & H2 & H3 & ->).
    apply IH. simpl. lia.
  - now exists cs.
Qed.

Lemma loop_more_fuel (fuel fuel' : nat) (s : state A) (cs : list A) :
  (fuel <= fuel')%nat -> loop fuel s = Some cs -> loop fuel' s = Some cs.
Proof.
  revert fuel' s. induction fuel as [|fuel IH]; intros fuel' s Hle;
    [discriminate|].
  destruct fuel' as [|fuel']; [lia|].
  unfold loop. simpl. fold body.
  destruct (body s); auto. apply IH. lia.
Qed.

(** With a step that is zero or negative, a state that goes round
    once goes round for ever. *)
Lemma loop_diverges (fuel : nat) :
  m - o <= 0 ->
  forall s, current_pos s < N -> current_pos s + m < N ->
  loop fuel s = None.
Proof.
  intros Hstep. induction fuel as [|fuel IH]; intros s H1 H2; [reflexivity|].
  unfold loop. simpl. fold body.
  destruct (body s) as [s'|cs] eqn:E.
  - apply loop_body_continue in E as (_ & _ & H3 & ->).
    apply IH; simpl; lia.
  - apply loop_body_return in E as [[H _]|(_ & [H|H] & _)]; lia.
Qed.

(** The cursor positions of [k] trips from [pos] on. *)
Lemma cursor_positions_succ (pos step : Z) (k : nat) :
  map (fun i => pos + Z.of_nat i * step) (seq 0 (S k))
  = pos :: map (fun i => pos + step + Z.of_nat i * step) (seq 0 k).
Proof.
  cbn [seq map]. f_equal; [lia|].
  rewrite <- seq_shift, map_map. apply map_ext. intros i. lia.
Qed.

(** The chunks are the decoded windows at the cursor positions
    [pos, pos + step, pos + 2 * step, ...]; these are strictly
    increasing and all lie from [pos] on and before the end of the
    tokens. *)
Lemma loop_starts (fuel : nat) :
  forall s cs, loop fuel s = Some cs ->
  exists k,
    let starts :=
      map (fun i => current_pos s + Z.of_nat i * (m - o)) (seq 0 k) in
    cs = chunks s ++ map (fun p => d (window tokens m p)) starts /\
    StronglySorted Z.lt starts /\
    Forall (fun p => current_pos s <= p < N) starts.
Proof.
  induction fuel as [|fuel IH]; intros s cs; [discriminate|].
  unfold loop. simpl. fold body.
  destruct (body s) as [s'|cs'] eqn:E.
  - intros Hrun. fold (loop fuel s') in Hrun.
    pose proof E as E'.
    apply loop_body_continue in E' as (H1 & H2 & H3 & ->).
    destruct (Z.le_gt_cases (m - o) 0) as [Hneg|Hpos].
    { rewrite (loop_diverges fuel Hneg) in Hrun by (simpl; lia).
      discriminate. }
    destruct (IH _ _ Hrun) as (k & Hcs & Hs & Hge).
    cbn [current_pos chunks] in Hcs, Hs, Hge.
    exists (S k). cbv zeta. rewrite cursor_positions_succ.
    split; [|split].
    + rewrite Hcs, <- app_assoc. reflexivity.
    + constructor; [exact Hs|].
      eapply Forall_impl; [|exact Hge]. cbv beta. intros; lia.
    + constructor; [lia|].
      eapply Forall_impl; [|exact Hge]. cbv beta. intros; lia.
  - intros [= <-].
    apply loop_body_return in E as [[_ ->]|(H1 & _ & ->)].
    + exists 0%nat. cbn [seq map]. rewrite app_nil_r. repeat constructor.
    + exists 1%nat. cbv zeta. rewrite cursor_positions_succ. cbn [seq map].
      repeat constructor; lia.
Qed.

(** The number of chunks. *)
Lemma loop_count (fuel : nat) :
  0 <= o -> o < m ->
  forall s cs, loop fuel s = Some cs -> current_pos s < N ->
  Z.of_nat (length cs) =
  Z.of_nat (length (chunks s)) + 1
  + ceil_div (Z.max 0 (N - current_pos s - m)) (m - o).
Proof.
  intros Ho Hm. induction fuel as [|fuel IH]; intros s cs; [discriminate|].
  unfold loop. simpl. fold body.
  destruct (body s) as [s'|cs'] eqn:E.
  - intros Hrun Hpos. fold (loop fuel s') in Hrun.
    apply loop_body_continue in E as (H1 & H2 & H3 & ->).
    rewrite (IH _ _ Hrun) by (simpl; lia). simpl.
    rewrite length_app. simpl.
    assert (Hstep : 0 < m - o) by lia.
    pose proof (ceil_div_bounds
                  (Z.max 0 (N - (current_pos s + (m - o)) - m)) (m - o)
                  Hstep) as B.
    set (q := ceil_div (Z.max 0 (N - (current_pos s + (m - o)) - m)) (m - o))
      in *.
    clearbody q.
    rewrite (ceil_div_unique (Z.max 0 (N - current_pos s - m)) (m - o)
               (1 + q)); [lia|lia|].
    destruct (Z.max_spec 0 (N - (current_pos s + (m - o)) - m))
      as [[Hc Hx]|[Hc Hx]]; rewrite Hx in B;
      rewrite (Z.max_r 0 (N - current_pos s - m)) by lia; [nia|].
    assert (q = 0) as -> by nia. lia.
  - intros [= <-] Hpos.
    apply loop_body_return in E as [[H _]|(_ & H & ->)]; [lia|].
    rewrite length_app. simpl.
    rewrite (ceil_div_unique (Z.max 0 (N - current_pos s - m)) (m - o) 0);
      lia.
Qed.

End Loop.

(** Decoding commutes with the loop: the chunks are the decoded token
    windows. *)
Lemma loop_decode {A : Type} (d : list Z -> A) (tokens : list Z) (m o : Z)
    (fuel : nat) :
  forall pos acc,
    while_loop d tokens m o fuel {| current_pos := pos; chunks := map d acc |}
    = option_map (map d)
        (while_loop (fun w => w) tokens m o fuel
           {| current_pos := pos; chunks := acc |}).
Proof.
  induction fuel as [|fuel IH]; intros pos acc; [reflexivity|].
  simpl. unfold loop_body. simpl.
  destruct (pos <? len tokens); [|reflexivity].
  destruct (Z.min (pos + m) (len tokens) =? len tokens).
  - simpl. now rewrite map_app.
  - destruct (pos + (m - o) >=? len tokens).
    + simpl. now rewrite map_app.
    + rewrite <- IH. now rewrite map_app.
Qed.

Lemma split_text_into_chunks_windows (tok : tokenizer) (fuel : nat)
    (text : string) (m o : Z) :
  split_text_into_chunks tok fuel text m o
  = option_map (map (decode tok)) (token_windows fuel (encode tok text) m o).
Proof.
  unfold split_text_into_chunks, token_windows, initial.
  apply (loop_decode (decode tok) (encode tok text) m o fuel 0 []).
Qed.

Lemma drop_overlap_same (o : Z) (ws : list (list Z)) :
  drop_overlap o o ws = concat (map (skipn (Z.to_nat o)) ws).
Proof. destruct ws; reflexivity. Qed.

(** From a state at [pos], what is still appended covers the tokens
    from [pos] on. *)
Lemma loop_reassemble (tokens : list Z) (m o : Z) (fuel : nat) :
  0 <= o -> o < m ->
  forall s cs,
    0 <= current_pos s ->
    while_loop (fun w => w) tokens m o fuel s = Some cs ->
    exists new,
      cs = chunks s ++ new /\
      forall dd, 0 <= dd <= m ->
        drop_overlap dd o new
        = skipn (Z.to_nat (current_pos s + dd)) tokens.
Proof.
  intros Ho Hm. induction fuel as [|fuel IH]; intros s cs Hpos; [discriminate|].
  simpl.
  destruct (loop_body (fun w => w) tokens m o s) as [s'|cs'] eqn:E.
  - intros Hrun.
    apply loop_body_continue in E as (H1 & H2 & H3 & ->).
    apply IH in Hrun as (new & -> & Hnew); [|simpl; lia].
    simpl in *.
    exists (window tokens m (current_pos s) :: new).
    rewrite <- app_assoc. split; [reflexivity|].
    intros dd Hdd. simpl.
    rewrite <- drop_overlap_same, (Hnew o) by lia.
    unfold window. rewrite Z.min_l by lia.
    rewrite slice_inside by lia.
    replace (current_pos s + m - current_pos s) with m by lia.
    replace (Z.to_nat (current_pos s + (m - o) + o))
      with (Z.to_nat (current_pos s) + Z.to_nat m)%nat by lia.
    replace (Z.to_nat (current_pos s + dd))
      with (Z.to_nat (current_pos s) + Z.to_nat dd)%nat by lia.
    apply skipn_window_app. lia.
  - intros [= <-].
    apply loop_body_return in E as [[H ->]|(H1 & H2 & ->)].
    + exists []. rewrite app_nil_r. split; [reflexivity|].
      intros dd Hdd. simpl. symmetry. apply skipn_all_Z. lia.
    + exists [window tokens m (current_pos s)]. split; [reflexivity|].
      intros dd Hdd. simpl. rewrite app_nil_r.
      unfold window. rewrite Z.min_r by lia.
      pose proof (len_nonneg tokens).
      rewrite slice_inside by lia.
      rewrite firstn_all2.
      * rewrite skipn_skipn. f_equal. lia.
      * rewrite length_skipn. unfold len. lia.
Qed.

End ChunkerFacts.

(** ** Claims about the sliding-window chunker *)

Module ChunkerClaims.

Import PySeq PySeqFacts Chunker ChunkerFacts.

(** Enough fuel: one trip more than there are tokens. *)
Lemma split_returns (tok : tokenizer) (text : string) (m o : Z) :
  o < m ->
  exists cs, forall fuel,
    (length (encode tok text) < fuel)%nat ->
    split_text_into_chunks tok fuel text m o = Some cs.
Proof.
  intros Hstep.
  destruct (loop_returns (decode tok) (encode tok text) m o
              (S (length (encode tok text))) ltac:(lia) initial) as [cs Hcs].
  { simpl. unfold len. lia. }
  exists cs. intros fuel Hfuel.
  eapply loop_more_fuel; [|exact Hcs]. lia.
Qed.

(** C1, as the code has it: for a token sequence of length N and
    0 <= overlap_tokens < max_tokens_per_chunk, split_text_into_chunks
    returns, and the number of chunks is
    ceil((N - overlap_tokens) / (max_tokens_per_chunk - overlap_tokens))
    when N > overlap_tokens, one when 0 < N <= overlap_tokens, and zero
    when N = 0; 1900 tokens with 500 and 50 give 5 chunks. *)
Theorem chunk_count (tok : tokenizer) (text : string) (m o : Z) :
  0 < m -> 0 <= o -> o < m ->
  let N := len (encode tok text) in
  exists cs,
    (forall fuel, (length (encode tok text) < fuel)%nat ->
                  split_text_into_chunks tok fuel text m o = Some cs) /\
    Z.of_nat (length cs) =
      (if N =? 0 then 0
       else if N <=? o then 1
       else ceil_div (N - o) (m - o)) /\
    (N = 1900 -> m = 500 -> o = 50 -> Z.of_nat (length cs) = 5) /\
    (N = 0 -> cs = []).
Proof.
  intros Hm Ho Hlt N.
  destruct (split_returns tok text m o Hlt) as [cs Hcs].
  exists cs. split; [exact Hcs|].
  pose proof (Hcs (S (length (encode tok text))) (Nat.lt_succ_diag_r _))
    as Hrun.
  assert (Hzero : N = 0 -> cs = []).
  { intros HN. unfold split_text_into_chunks in Hrun. simpl in Hrun.
    unfold loop_body in Hrun. simpl in Hrun. fold N in Hrun.
    rewrite HN in Hrun. simpl in Hrun. congruence. }
  assert (Hcount : Z.of_nat (length cs) =
            (if N =? 0 then 0
             else if N <=? o then 1 else ceil_div (N - o) (m - o))).
  { destruct (Z.eqb_spec N 0) as [HN|HN].
    - now rewrite (Hzero HN).
    - pose proof (len_nonneg (encode tok text)) as HN0. fold N in HN0.
      unfold split_text_into_chunks in Hrun.
      apply (loop_count (decode tok) (encode tok text) m o _ Ho Hlt) in Hrun;
        [|simpl; fold N; lia].
      unfold initial in Hrun. cbn [chunks current_pos length] in Hrun.
      fold N in Hrun. rewrite Hrun.
      replace (N - 0 - m) with (N - m) by lia.
      pose proof (ceil_div_bounds (Z.max 0 (N - m)) (m - o) ltac:(lia)) as B.
      set (q := ceil_div (Z.max 0 (N - m)) (m - o)) in *. clearbody q.
      destruct (Z.leb_spec N o) as [Hle|Hgt].
      + rewrite Z.max_l in B by lia. assert (q = 0) as -> by nia. lia.
      + symmetry.
        rewrite (ceil_div_unique (N - o) (m - o) (1 + q)); [lia|lia|].
        destruct (Z.max_spec 0 (N - m)) as [[Hc Hx]|[Hc Hx]]; rewrite Hx in B.
        * nia.
        * assert (q = 0) as -> by nia. lia. }
  split; [exact Hcount|]. split; [|exact Hzero].
  intros HN -> ->. rewrite Hcount, HN. reflexivity.
Qed.

Lemma chunk_count_witness :
  0 < 500 /\ 0 <= 50 /\ 50 < 500 /\
  exists cs,
    (forall fuel, (1900 < fuel)%nat ->
       split_text_into_chunks Samples.char_tokenizer fuel
         (Samples.document 1900) 500 50 = Some cs) /\
    Z.of_nat (length cs) = 5.
Proof.
  split; [lia|]. split; [lia|]. split; [lia|].
  destruct (chunk_count Samples.char_tokenizer (Samples.document 1900) 500 50)
    as (cs & Hrun & _ & H1900 & _); try lia.
  exists cs. split.
  - intros fuel Hfuel. apply Hrun.
    replace (length (encode Samples.char_tokenizer (Samples.document 1900)))
      with 1900%nat by (vm_compute; reflexivity).
    exact Hfuel.
  - apply H1900; vm_compute; reflexivity.
Defined.

(** C1 as stated fails on a non-empty input no longer than the overlap:
    10 tokens with 500 and 50 give one chunk, and the formula gives 0. *)
Lemma chunk_count_counterexample :
  len (encode Samples.char_tokenizer (Samples.document 10)) = 10 /\
  split_text_into_chunks Samples.char_tokenizer 11 (Samples.document 10) 500 50
    = Some ["aaaaaaaaaa"%string] /\
  ceil_div (10 - 50) (500 - 50) = 0 /\
  Z.of_nat (length ["aaaaaaaaaa"%string]) <> ceil_div (10 - 50) (500 - 50).
Proof.
  split; [vm_compute; reflexivity|].
  split; [vm_compute; reflexivity|].
  split; [vm_compute; reflexivity|].
  vm_compute. discriminate.
Qed.

(** C2: for max_tokens_per_chunk > 0 and
    0 <= overlap_tokens < max_tokens_per_chunk the loop of
    split_text_into_chunks terminates: every trip that goes round again
    strictly increases the cursor and keeps it before the end, a window
    that reaches the end of the sequence leaves the loop, and any bound
    above the number of tokens is enough for the function to return. *)
Theorem chunker_terminates (tok : tokenizer) (text : string) (m o : Z) :
  0 < m -> 0 <= o -> o < m ->
  let tokens := encode tok text in
  (forall s s',
      loop_body (decode tok) tokens m o s = Continue s' ->
      current_pos s < current_pos s' /\ current_pos s' < len tokens) /\
  (forall s,
      current_pos s < len tokens -> len tokens <= current_pos s + m ->
      exists cs, loop_body (decode tok) tokens m o s = Return cs) /\
  exists cs, forall fuel,
    (length tokens < fuel)%nat ->
    split_text_into_chunks tok fuel text m o = Some cs.
Proof.
  intros Hm Ho Hlt tokens. split; [|split].
  - intros s s' E.
    apply loop_body_continue in E as (H1 & H2 & H3 & ->). simpl. lia.
  - intros s H1 H2. eexists. apply loop_body_at_end; assumption.
  - apply split_returns. exact Hlt.
Qed.

Lemma chunker_terminates_witness :
  0 < 4 /\ 0 <= 1 /\ 1 < 4 /\
  exists cs, forall fuel,
    (length (encode Samples.char_tokenizer (Samples.document 10)) < fuel)%nat ->
    split_text_into_chunks Samples.char_tokenizer fuel (Samples.document 10) 4 1
    = Some cs.
Proof.
  split; [lia|]. split; [lia|]. split; [lia|].
  apply (chunker_terminates Samples.char_tokenizer (Samples.document 10) 4 1);
    lia.
Defined.

Lemma windows_return (tokens : list Z) (m o : Z) :
  o < m ->
  exists ws, forall fuel,
    (length tokens < fuel)%nat -> token_windows fuel tokens m o = Some ws.
Proof.
  intros Hstep.
  destruct (loop_returns (fun w => w) tokens m o (S (length tokens))
              ltac:(lia) initial) as [ws Hws].
  { simpl. unfold len. lia. }
  exists ws. intros fuel Hfuel.
  eapply loop_more_fuel; [|exact Hws]. lia.
Qed.

Lemma map_skipn_0 {A : Type} (ws : list (list A)) : map (skipn 0) ws = ws.
Proof. induction ws as [|w ws IH]; [reflexivity|]. simpl in *. now rewrite IH. Qed.

(** C3: for 0 <= overlap_tokens < max_tokens_per_chunk the function
    returns the decoded token windows, and the first window followed by
    every later window without its first overlap_tokens tokens is the
    original token sequence; with overlap_tokens = 0 the windows
    themselves, one after the other, are the token sequence. *)
Theorem chunks_reassemble (tok : tokenizer) (text : string) (m o : Z) :
  0 <= o -> o < m ->
  let tokens := encode tok text in
  exists ws,
    (forall fuel, (length tokens < fuel)%nat ->
       token_windows fuel tokens m o = Some ws /\
       split_text_into_chunks tok fuel text m o = Some (map (decode tok) ws)) /\
    reassemble o ws = tokens /\
    (o = 0 -> concat ws = tokens).
Proof.
  intros Ho Hlt tokens.
  destruct (windows_return tokens m o Hlt) as [ws Hws].
  exists ws.
  assert (Hre : reassemble o ws = tokens).
  { pose proof (Hws (S (length tokens)) (Nat.lt_succ_diag_r _)) as Hrun.
    unfold token_windows in Hrun.
    apply (loop_reassemble tokens m o _ Ho Hlt) in Hrun as (new & -> & Hnew);
      [|simpl; lia].
    simpl. unfold reassemble. rewrite (Hnew 0) by lia. reflexivity. }
  split; [|split].
  - intros fuel Hfuel. split; [now apply Hws|].
    rewrite split_text_into_chunks_windows. fold tokens.
    now rewrite (Hws fuel Hfuel).
  - exact Hre.
  - intros ->. rewrite <- Hre. unfold reassemble.
    rewrite drop_overlap_same. simpl. now rewrite map_skipn_0.
Qed.

Lemma chunks_reassemble_witness :
  0 <= 1 /\ 1 < 4 /\
  exists ws,
    (forall fuel,
       (length (encode Samples.char_tokenizer (Samples.document 10)) < fuel)%nat ->
       token_windows fuel
         (encode Samples.char_tokenizer (Samples.document 10)) 4 1 = Some ws /\
       split_text_into_chunks Samples.char_tokenizer fuel
         (Samples.document 10) 4 1
       = Some (map (decode Samples.char_tokenizer) ws)) /\
    reassemble 1 ws = encode Samples.char_tokenizer (Samples.document 10) /\
    (1 = 0 -> concat ws = encode Samples.char_tokenizer (Samples.document 10)).
Proof.
  split; [lia|]. split; [lia|].
  apply (chunks_reassemble Samples.char_tokenizer (Samples.document 10) 4 1);
    lia.
Defined.

(** C8: for max_tokens_per_chunk > 0, whatever the overlap, the chunks
    that split_text_into_chunks returns are, in this order, the decoded
    windows tokens[p : min(p + max_tokens_per_chunk, N)] at the starting
    positions p = 0, step, 2 * step, ... (step = max_tokens_per_chunk -
    overlap_tokens); these positions are strictly increasing and lie
    inside the tokens, and each window holds at most max_tokens_per_chunk
    tokens; and the function does return whenever
    overlap_tokens < max_tokens_per_chunk. *)
Theorem chunks_bounded_ordered (tok : tokenizer) (text : string) (m o : Z) :
  0 < m ->
  let tokens := encode tok text in
  (forall fuel cs,
      split_text_into_chunks tok fuel text m o = Some cs ->
      let starts := Windows.window_starts (m - o) (length cs) in
      StronglySorted Z.lt starts /\
      Forall (fun p => 0 <= p < len tokens) starts /\
      cs = map (fun p => decode tok (window tokens m p)) starts /\
      Forall (fun p => len (window tokens m p) <= m) starts) /\
  (o < m ->
   exists cs, forall fuel,
     (length tokens < fuel)%nat ->
     split_text_into_chunks tok fuel text m o = Some cs).
Proof.
  intros Hm tokens. split.
  - intros fuel cs Hrun. unfold split_text_into_chunks in Hrun.
    apply loop_starts in Hrun as (k & Hcs & Hsorted & Hrange).
    cbn [current_pos chunks initial app] in Hcs, Hsorted, Hrange.
    assert (Hstarts :
              map (fun i => 0 + Z.of_nat i * (m - o)) (seq 0 k)
              = Windows.window_starts (m - o) k).
    { unfold Windows.window_starts. apply map_ext. intros i. lia. }
    rewrite Hstarts in Hcs, Hsorted, Hrange.
    assert (Hk : length cs = k).
    { rewrite Hcs, length_map. unfold Windows.window_starts.
      now rewrite length_map, length_seq. }
    rewrite Hk. cbv zeta.
    split; [exact Hsorted|]. split; [exact Hrange|]. split; [exact Hcs|].
    apply Forall_forall. intros p _. unfold window.
    apply slice_length_le. exact Hm.
  - apply split_returns.
Qed.

Lemma chunks_bounded_ordered_witness :
  0 < 4 /\
  split_text_into_chunks Samples.char_tokenizer 11 (Samples.document 10) 4 1
  = Some ["aaaa"; "aaaa"; "aaaa"]%string /\
  Windows.window_starts (4 - 1) 3 = [0; 3; 6] /\
  StronglySorted Z.lt [0; 3; 6] /\
  Forall (fun p =>
            0 <= p < len (encode Samples.char_tokenizer (Samples.document 10)))
         [0; 3; 6] /\
  ["aaaa"; "aaaa"; "aaaa"]%string
  = map (fun p =>
           decode Samples.char_tokenizer
             (window (encode Samples.char_tokenizer (Samples.document 10)) 4 p))
        [0; 3; 6].
Proof.
  split; [lia|]. split; [reflexivity|]. split; [reflexivity|].
  destruct (proj1 (chunks_bounded_ordered Samples.char_tokenizer
                     (Samples.document 10) 4 1 ltac:(lia))
              11%nat ["aaaa"; "aaaa"; "aaaa"]%string eq_refl)
    as (Hsorted & Hrange & Hcs & _).
  split; [exact Hsorted|]. split; [exact Hrange|]. exact Hcs.
Defined.

End ChunkerClaims.

(** ** Claims about the separator-based chunker *)

Module SeparatorChunkerClaims.

Import Py SeparatorChunker.
Open Scope string_scope.

Section Unbound.
Variable tok : tokenizer.
Variable separator : string.

Let loop := for_loop tok None separator.



End Unbound.




(** C7 at its own example: on "a\n\nb\n\nc" with separator "\n\n" the
    function raises the NameError when it reaches "b", whatever the
    tokenizer and min_length, and returns no chunk. *)
Theorem abc_raises_name_error (tok : tokenizer) (min_length : Z) :
  split_text_by_separator tok Samples.abc Samples.paragraph_separator min_length
  = Raise (NameError "max_tokens_per_chunk").
Proof. reflexivity. Qed.

(** Were the name bound to a budget that fits all parts, the loop as
    written would give the single chunk of the specification. *)
Lemma abc_with_bound_budget :
  split_text_by_separator_in Samples.char_tokenizer (Some 100)
    Samples.paragraph_separator Samples.abc
  = Ok [Samples.abc].
Proof. reflexivity. Qed.

End SeparatorChunkerClaims.

(** ** Claims about the adapters and the chat handlers *)

Module RagClaims.

Import Py Rag.
Open Scope string_scope.

Section Handlers.
Context {embedding : Type}.
Variable svc : services embedding.

Lemma get_embeddings_calls (texts : list value) :
  existsb is_generation (snd (get_embeddings svc texts)) = false.
Proof.
  destruct texts as [|t texts]; [reflexivity|].
  unfold get_embeddings, try_except, remote, raise.
  destruct (embeddings_create svc (t :: texts) EMBEDDING_MODEL); reflexivity.
Qed.

Lemma get_similar_documents_calls (e : embedding) (k : Z) (ns : string) :
  existsb is_generation (snd (get_similar_documents svc e k ns)) = false.
Proof.
  unfold get_similar_documents, get_index, bind, try_except, remote, ret.
  destruct (pinecone_index svc); simpl; [|reflexivity].
  destruct (index_query svc e k ns); reflexivity.
Qed.

(** [get_similar_documents] never raises. *)
Lemma get_similar_documents_total (e : embedding) (k : Z) (ns : string) :
  exists docs, fst (get_similar_documents svc e k ns) = Ok docs.
Proof.
  unfold get_similar_documents, get_index, bind, try_except, remote, ret.
  destruct (pinecone_index svc); simpl; [|now exists []].
  destruct (index_query svc e k ns) as [docs|err]; simpl;
    [now exists docs|now exists []].
Qed.

(** A failing store is an empty result. *)
Lemma get_similar_documents_swallows (e : embedding) :
  store_fails svc e ->
  exists t, get_similar_documents svc e 5 "" = (Ok [], t).
Proof.
  unfold get_similar_documents, get_index, bind, try_except, remote, ret.
  intros [[err H]|[err H]].
  - rewrite H. simpl. now eexists.
  - destruct (pinecone_index svc); simpl; [|now eexists].
    rewrite H. simpl. now eexists.
Qed.

Lemma chat_no_documents (question : string) (e : embedding)
    (es : list embedding) (t1 t2 : list (call embedding)) :
  get_embeddings svc [PyStr question] = (Ok (e :: es), t1) ->
  get_similar_documents svc e 5 "" = (Ok [], t2) ->
  chat svc question = (Ok fallback_response, (t1 ++ t2)%list).
Proof.
  intros H1 H2. unfold chat. rewrite H1. unfold bind at 1.
  simpl. rewrite H2. simpl.
  now rewrite !app_nil_r.
Qed.

Lemma flask_chat_no_documents (data q : value) (e : embedding)
    (es : list embedding) (t1 t2 : list (call embedding)) :
  question_missing data = Ok false ->
  getitem data "question" = Ok q ->
  get_embeddings svc [q] = (Ok (e :: es), t1) ->
  get_similar_documents svc e 5 "" = (Ok [], t2) ->
  flask_chat svc (Ok data)
  = (Ok fallback_response, (t1 ++ t2)%list).
Proof.
  intros H0 Hq H1 H2. unfold flask_chat, lift.
  cbn [bind]. rewrite H0. cbn [bind]. rewrite Hq. cbn [bind].
  rewrite H1. cbn [bind first_embedding]. rewrite H2.
  cbn [bind ret try_except app]. now rewrite !app_nil_r.
Qed.

Lemma question_missing_lacks (data : value) :
  lacks_question data -> question_missing data = Ok true.
Proof.
  unfold question_missing. intros [H|(items & -> & H)].
  - now rewrite H.
  - destruct items as [|item items]; [reflexivity|].
    cbn [truthy negb contains]. now rewrite H.
Qed.

(** C4: when the retrieval step returns no similar document, both
    handlers answer 200 with the fixed fallback text and an empty
    retrieved_context, and the calls made are those of the embedding
    and retrieval steps: no chat completion call among them. *)
Theorem zero_documents_fallback (q : value) (e : embedding)
    (es : list embedding) (t1 t2 : list (call embedding)) :
  get_embeddings svc [q] = (Ok (e :: es), t1) ->
  get_similar_documents svc e 5 "" = (Ok [], t2) ->
  (forall question, q = PyStr question ->
     chat svc question = (Ok fallback_response, (t1 ++ t2)%list)) /\
  (forall data,
     question_missing data = Ok false ->
     getitem data "question" = Ok q ->
     flask_chat svc (Ok data) = (Ok fallback_response, (t1 ++ t2)%list)) /\
  content fallback_response = ChatResponse fallback_answer [] /\
  existsb is_generation (t1 ++ t2) = false.
Proof.
  intros H1 H2. split; [|split; [|split]].
  - intros question ->. now apply chat_no_documents with (e := e) (es := es).
  - intros data H0 Hq.
    now apply flask_chat_no_documents with (q := q) (e := e) (es := es).
  - reflexivity.
  - rewrite existsb_app.
    pose proof (get_embeddings_calls [q]) as G1.
    pose proof (get_similar_documents_calls e 5 "") as G2.
    rewrite H1 in G1. rewrite H2 in G2. simpl in G1, G2.
    now rewrite G1, G2.
Qed.

(** C5, as the code has it: when the vector store is unreachable or
    its query call errors, get_similar_documents catches the error and
    returns no document, so a request whose embedding call succeeded
    is answered 200 with the fallback text and an empty context; the
    failure is not turned into a 500. *)
Theorem store_failure_is_fallback (q : value) (e : embedding)
    (es : list embedding) (t1 : list (call embedding)) :
  get_embeddings svc [q] = (Ok (e :: es), t1) ->
  store_fails svc e ->
  exists t2,
    get_similar_documents svc e 5 "" = (Ok [], t2) /\
    (forall question, q = PyStr question ->
       chat svc question = (Ok fallback_response, (t1 ++ t2)%list)) /\
    (forall data,
       question_missing data = Ok false ->
       getitem data "question" = Ok q ->
       flask_chat svc (Ok data) = (Ok fallback_response, (t1 ++ t2)%list)) /\
    status fallback_response = 200.
Proof.
  intros H1 Hfail.
  destruct (get_similar_documents_swallows e Hfail) as [t2 H2].
  exists t2. split; [exact H2|]. split; [|split].
  - intros question ->. now apply chat_no_documents with (e := e) (es := es).
  - intros data H0 Hq.
    now apply flask_chat_no_documents with (q := q) (e := e) (es := es).
  - reflexivity.
Qed.

(** A failure of the embedding service is what the FastAPI handler
    does surface as a 500. *)
Lemma chat_embedding_failure (question : string) (err : exn)
    (t : list (call embedding)) :
  get_embeddings svc [PyStr question] = (Raise err, t) ->
  chat svc question
  = (Ok {| status := 500;
           content := ErrorBody "detail" ("An error occurred: " ++ str err) |},
     t).
Proof.
  intros H. unfold chat. rewrite H. cbn [bind try_except ret].
  now rewrite app_nil_r.
Qed.

(** C9: get_embeddings on the empty list returns the empty list and
    makes no call. *)
Theorem get_embeddings_empty :
  get_embeddings svc [] = (Ok [], []).
Proof. reflexivity. Qed.

Lemma question_present (items : list (string * value)) (q : value) :
  dict_get "question" items = Some q ->
  question_missing (PyDict items) = Ok false /\
  getitem (PyDict items) "question" = Ok q.
Proof.
  intros H. unfold question_missing, getitem.
  destruct items as [|item items]; [discriminate|].
  cbn [truthy negb contains]. now rewrite H.
Qed.

(** Once the question is read, the Flask handler first calls the
    embedding service, and no later return is a 400. *)
Lemma flask_chat_reaches_embedding (data q : value) :
  question_missing data = Ok false ->
  getitem data "question" = Ok q ->
  status_of (flask_chat svc (Ok data)) <> Some 400 /\
  exists t,
    snd (flask_chat svc (Ok data)) = EmbeddingsCreate [q] EMBEDDING_MODEL :: t.
Proof.
  intros H0 Hq. unfold flask_chat, lift, status_of.
  cbn [bind]. rewrite H0. cbn [bind]. rewrite Hq. cbn [bind].
  unfold get_embeddings, remote, try_except at 2.
  destruct (embeddings_create svc [q] EMBEDDING_MODEL) as [[|e es]|err];
    cbn [raise bind first_embedding try_except ret app fst snd status];
    try (split; [discriminate|eexists; reflexivity]).
  destruct (get_similar_documents svc e 5 "") as [[[|doc docs]|err] t2];
    cbn [raise bind first_embedding try_except ret app fst snd status];
    try (split; [discriminate|eexists; reflexivity]).
  destruct (collect metadata_get_text (doc :: docs)) as [texts|err];
    cbn [raise bind first_embedding try_except ret app fst snd status];
    try (split; [discriminate|eexists; reflexivity]).
  destruct (get_chat_completion svc q texts) as [[answer|err] t3];
    cbn [raise bind first_embedding try_except ret app fst snd status];
    split; try discriminate; eexists; reflexivity.
Qed.

(** C6, as the code has it: a body that is empty or is an object
    without the question key is answered 400 with an error field and
    no call is made; a body whose question is the empty string passes
    the test, is not answered 400, and the embedding service is called
    with it. *)
Theorem question_validation (data : value) :
  lacks_question data ->
  flask_chat svc (Ok data) = (Ok missing_question_response, []) /\
  content missing_question_response
  = ErrorBody "error" "Missing question in request" /\
  (forall items,
     dict_get "question" items = Some (PyStr "") ->
     status_of (flask_chat svc (Ok (PyDict items))) <> Some 400 /\
     exists t,
       snd (flask_chat svc (Ok (PyDict items)))
       = EmbeddingsCreate [PyStr ""] EMBEDDING_MODEL :: t).
Proof.
  intros H. split; [|split].
  - unfold flask_chat, lift. cbn [bind].
    rewrite (question_missing_lacks data H). reflexivity.
  - reflexivity.
  - intros items Hitems.
    destruct (question_present items (PyStr "") Hitems) as [H0 Hq].
    now apply flask_chat_reaches_embedding.
Qed.

End Handlers.

(** *** Concrete requests *)

Lemma zero_documents_fallback_witness :
  get_embeddings Samples.no_match [PyStr "q"]
  = (Ok [[1; 2; 3]], [Samples.question_embedding_call]) /\
  get_similar_documents Samples.no_match [1; 2; 3] 5 ""
  = (Ok [], [PineconeIndex; IndexQuery [1; 2; 3] 5 ""]) /\
  chat Samples.no_match "q"
  = (Ok fallback_response,
     [Samples.question_embedding_call; PineconeIndex; IndexQuery [1; 2; 3] 5 ""]) /\
  flask_chat Samples.no_match (Ok (PyDict [("question", PyStr "q")]))
  = (Ok fallback_response,
     [Samples.question_embedding_call; PineconeIndex; IndexQuery [1; 2; 3] 5 ""]).
Proof.
  split; [reflexivity|]. split; [reflexivity|].
  destruct (zero_documents_fallback Samples.no_match (PyStr "q") [1; 2; 3] []
              [Samples.question_embedding_call]
              [PineconeIndex; IndexQuery [1; 2; 3] 5 ""]
              eq_refl eq_refl) as (Hchat & Hflask & _).
  split.
  - exact (Hchat "q" eq_refl).
  - exact (Hflask (PyDict [("question", PyStr "q")]) eq_refl eq_refl).
Defined.

(** C5 as stated fails: with the store unreachable, and with a query
    call that errors, both handlers answer 200 with the fallback text. *)
Lemma store_failure_counterexample :
  chat Samples.store_unreachable "q"
  = (Ok fallback_response, [Samples.question_embedding_call; PineconeIndex]) /\
  chat Samples.query_errors "q"
  = (Ok fallback_response,
     [Samples.question_embedding_call; PineconeIndex; IndexQuery [1; 2; 3] 5 ""]) /\
  flask_chat Samples.store_unreachable (Ok (PyDict [("question", PyStr "q")]))
  = (Ok fallback_response, [Samples.question_embedding_call; PineconeIndex]) /\
  status_of (chat Samples.store_unreachable "q") <> Some 500 /\
  status_of (chat Samples.query_errors "q") <> Some 500.
Proof. repeat split; try reflexivity; discriminate. Qed.

Lemma store_failure_is_fallback_witness :
  get_embeddings Samples.store_unreachable [PyStr "q"]
  = (Ok [[1; 2; 3]], [Samples.question_embedding_call]) /\
  store_fails Samples.store_unreachable [1; 2; 3] /\
  exists t2,
    get_similar_documents Samples.store_unreachable [1; 2; 3] 5 "" = (Ok [], t2) /\
    chat Samples.store_unreachable "q"
    = (Ok fallback_response, (Samples.question_embedding_call :: t2)%list).
Proof.
  split; [reflexivity|].
  assert (Hfail : store_fails Samples.store_unreachable [1; 2; 3]).
  { left. eexists. reflexivity. }
  split; [exact Hfail|].
  destruct (store_failure_is_fallback Samples.store_unreachable (PyStr "q")
              [1; 2; 3] [] [Samples.question_embedding_call] eq_refl Hfail)
    as (t2 & H2 & Hchat & _).
  exists t2. split; [exact H2|]. exact (Hchat "q" eq_refl).
Defined.

(** C6 as stated fails on the empty-string question: the handler does
    not answer 400 and it calls the embedding service and the store. *)
Lemma empty_question_counterexample :
  flask_chat Samples.no_match (Ok (PyDict [("question", PyStr "")]))
  = (Ok fallback_response,
     [EmbeddingsCreate [PyStr ""] EMBEDDING_MODEL; PineconeIndex;
      IndexQuery [1; 2; 3] 5 ""]) /\
  status_of (flask_chat Samples.no_match (Ok (PyDict [("question", PyStr "")])))
  <> Some 400.
Proof. split; [reflexivity|discriminate]. Qed.

Lemma question_validation_witness :
  lacks_question (PyDict [("text", PyStr "hello")]) /\
  flask_chat Samples.no_match (Ok (PyDict [("text", PyStr "hello")]))
  = (Ok missing_question_response, []).
Proof.
  assert (H : lacks_question (PyDict [("text", PyStr "hello")])).
  { right. eexists. split; reflexivity. }
  split; [exact H|].
  exact (proj1 (question_validation Samples.no_match
                  (PyDict [("text", PyStr "hello")]) H)).
Defined.

End RagClaims.

(* ================================================================== *)
(** * Further facts *)

(** ** More on the sliding-window chunker *)

Module ChunkerExtras.

Import PySeq PySeqFacts Chunker ChunkerFacts Windows.

(** The chunks are the decoded windows at the cursor positions
    [pos, pos + step, pos + 2 * step, ...], and every window but the last
    ends before the end of the tokens. *)
Lemma loop_windows_at {A : Type} (d : list Z -> A) (tokens : list Z) (m o : Z)
    (fuel : nat) :
  forall s cs,
    while_loop d tokens m o fuel s = Some cs ->
    exists k,
      cs = chunks s
           ++ map (fun i =>
                     d (window tokens m (current_pos s + Z.of_nat i * (m - o))))
                (seq 0 k) /\
      forall i, (S i < k)%nat ->
        current_pos s + Z.of_nat i * (m - o) + m < len tokens.
Proof.
  induction fuel as [|fuel IH]; intros s cs; [discriminate|].
  simpl. destruct (loop_body d tokens m o s) as [s'|cs'] eqn:E.
  - intros Hrun.
    apply loop_body_continue in E as (H1 & H2 & H3 & ->).
    apply IH in Hrun as (k & -> & Hk). simpl in *.
    exists (S k). split.
    + rewrite <- app_assoc. f_equal. simpl. f_equal.
      * do 2 f_equal. lia.
      * rewrite <- seq_shift, map_map. apply map_ext.
        intros i. do 2 f_equal. lia.
    + intros [|i] Hi.
      * simpl. lia.
      * specialize (Hk i ltac:(lia)). lia.
  - intros [= <-].
    apply loop_body_return in E as [[_ ->]|(_ & _ & ->)].
    + exists 0%nat. simpl. rewrite app_nil_r. split; [reflexivity|].
      intros i Hi. lia.
    + exists 1%nat. simpl. split.
      * do 4 f_equal. lia.
      * intros i Hi. lia.
Qed.

(** The [i]-th chunk is the window that starts at
    [i * (max_tokens_per_chunk - overlap_tokens)], whatever the
    parameters. *)
Theorem windows_at_multiples (tokens : list Z) (m o : Z) (fuel : nat)
    (ws : list (list Z)) :
  token_windows fuel tokens m o = Some ws ->
  ws = map (window tokens m) (window_starts (m - o) (length ws)).
Proof.
  intros Hrun. unfold token_windows in Hrun.
  apply loop_windows_at in Hrun as (k & -> & _). simpl.
  rewrite length_map, length_seq. unfold window_starts.
  rewrite map_map. reflexivity.
Qed.

Lemma windows_at_multiples_witness :
  token_windows 5 [10; 11; 12; 13; 14; 15; 16] 3 1
  = Some [[10; 11; 12]; [12; 13; 14]; [14; 15; 16]] /\
  [[10; 11; 12]; [12; 13; 14]; [14; 15; 16]]
  = map (window [10; 11; 12; 13; 14; 15; 16] 3) (window_starts (3 - 1) 3).
Proof.
  split; [reflexivity|].
  exact (windows_at_multiples [10; 11; 12; 13; 14; 15; 16] 3 1 5
           [[10; 11; 12]; [12; 13; 14]; [14; 15; 16]] eq_refl).
Defined.

(** When the overlap is not below the chunk size and the text has more
    tokens than one chunk holds, the loop never ends: no bound on the
    number of trips is enough. *)
Theorem large_overlap_never_returns (tok : tokenizer) (text : string)
    (m o : Z) (fuel : nat) :
  m <= o ->
  0 < len (encode tok text) ->
  m < len (encode tok text) ->
  split_text_into_chunks tok fuel text m o = None.
Proof.
  intros Hstep Hpos Hlong. unfold split_text_into_chunks.
  apply loop_diverges; simpl; lia.
Qed.

Lemma large_overlap_never_returns_witness :
  4 <= 4 /\
  0 < len (encode Samples.char_tokenizer (Samples.document 10)) /\
  4 < len (encode Samples.char_tokenizer (Samples.document 10)) /\
  split_text_into_chunks Samples.char_tokenizer 1000 (Samples.document 10) 4 4
  = None.
Proof.
  split; [lia|]. split; [vm_compute; reflexivity|].
  split; [vm_compute; reflexivity|].
  apply large_overlap_never_returns; [lia| |]; vm_compute; reflexivity.
Defined.

(** A non-empty text of at most max_tokens_per_chunk tokens is returned as
    one chunk, the decoding of all its tokens, whatever the overlap. *)
Theorem short_text_single_chunk (tok : tokenizer) (text : string) (m o : Z)
    (fuel : nat) :
  0 < len (encode tok text) ->
  len (encode tok text) <= m ->
  split_text_into_chunks tok (S fuel) text m o
  = Some [decode tok (encode tok text)].
Proof.
  intros Hpos Hshort. unfold split_text_into_chunks. simpl.
  rewrite loop_body_at_end by (simpl; lia). simpl.
  unfold window. rewrite Z.min_r by lia.
  rewrite slice_inside by lia. simpl.
  rewrite firstn_all2; [reflexivity|]. unfold len. lia.
Qed.

Lemma short_text_single_chunk_witness :
  0 < len (encode Samples.char_tokenizer (Samples.document 10)) /\
  len (encode Samples.char_tokenizer (Samples.document 10)) <= 500 /\
  split_text_into_chunks Samples.char_tokenizer 1 (Samples.document 10) 500 50
  = Some [decode Samples.char_tokenizer
            (encode Samples.char_tokenizer (Samples.document 10))].
Proof.
  split; [vm_compute; reflexivity|]. split; [vm_compute; discriminate|].
  apply short_text_single_chunk; vm_compute; [reflexivity|discriminate].
Defined.

(** For 0 <= overlap_tokens < max_tokens_per_chunk, a window that is
    followed by another holds exactly max_tokens_per_chunk tokens, its
    last overlap_tokens tokens are the first overlap_tokens tokens of the
    next one, and the next one holds more than overlap_tokens tokens. *)
Theorem consecutive_windows_overlap (tokens : list Z) (m o : Z) (fuel : nat)
    (ws : list (list Z)) (i : nat) (w w' : list Z) :
  0 <= o -> o < m ->
  token_windows fuel tokens m o = Some ws ->
  nth_error ws i = Some w ->
  nth_error ws (S i) = Some w' ->
  len w = m /\
  o < len w' /\
  skipn (Z.to_nat (m - o)) w = firstn (Z.to_nat o) w'.
Proof.
  intros Ho Hm Hrun Hw Hw'. unfold token_windows in Hrun.
  apply loop_windows_at in Hrun as (k & -> & Hk).
  unfold initial in *. cbn [chunks current_pos app] in *.
  rewrite nth_error_map, nth_error_seq in Hw, Hw'.
  destruct (Nat.ltb_spec (S i) k) as [Hi|Hi]; [|discriminate].
  destruct (Nat.ltb_spec i k) as [_|Hi']; [|lia].
  cbn [option_map Nat.add] in Hw, Hw'.
  assert (Ew : w = window tokens m (0 + Z.of_nat i * (m - o))) by congruence.
  assert (Ew' : w' = window tokens m (0 + Z.of_nat (S i) * (m - o)))
    by congruence.
  subst w w'. clear Hw Hw'.
  specialize (Hk i Hi). rewrite !Z.add_0_l in *.
  pose proof (len_nonneg tokens) as HN.
  set (p := Z.of_nat i * (m - o)) in *.
  assert (Hp : 0 <= p) by (unfold p; nia).
  replace (Z.of_nat (S i) * (m - o)) with (p + (m - o)) by (unfold p; lia).
  unfold window.
  rewrite (Z.min_l (p + m)) by lia.
  rewrite (slice_inside tokens p (p + m)) by lia.
  rewrite (slice_inside tokens (p + (m - o))) by lia.
  replace (p + m - p) with m by lia.
  set (e := Z.min (p + (m - o) + m) (len tokens)).
  assert (He : p + m < e) by (unfold e; lia).
  assert (He' : e <= len tokens) by (unfold e; lia).
  unfold len in *.
  split; [|split].
  - rewrite length_firstn, length_skipn. lia.
  - rewrite length_firstn, length_skipn. lia.
  - rewrite skipn_firstn_comm, skipn_skipn, firstn_firstn.
    replace (Z.to_nat m - Z.to_nat (m - o))%nat with (Z.to_nat o) by lia.
    replace (Z.to_nat (m - o) + Z.to_nat p)%nat
      with (Z.to_nat (p + (m - o))) by lia.
    f_equal. lia.
Qed.

Lemma consecutive_windows_overlap_witness :
  0 <= 1 /\ 1 < 3 /\
  token_windows 5 [10; 11; 12; 13; 14; 15; 16] 3 1
  = Some [[10; 11; 12]; [12; 13; 14]; [14; 15; 16]] /\
  len [12; 13; 14] = 3 /\
  1 < len [14; 15; 16] /\
  skipn (Z.to_nat (3 - 1)) [12; 13; 14] = firstn (Z.to_nat 1) [14; 15; 16].
Proof.
  split; [lia|]. split; [lia|]. split; [reflexivity|].
  apply (consecutive_windows_overlap [10; 11; 12; 13; 14; 15; 16] 3 1 5
           [[10; 11; 12]; [12; 13; 14]; [14; 15; 16]] 1);
    try reflexivity; lia.
Defined.

End ChunkerExtras.

(** ** More on the adapters and the chat handlers *)

Module RagExtras.

Import Py Rag Answers.
Open Scope string_scope.

Lemma collect_Forall2 {A B : Type} (f : A -> result B) (l : list A)
    (bs : list B) :
  collect f l = Ok bs <-> Forall2 (fun a b => f a = Ok b) l bs.
Proof.
  revert bs. induction l as [|a l IH]; intros bs; simpl.
  - split.
    + intros [= <-]. constructor.
    + intros H. inversion H. reflexivity.
  - destruct (f a) as [b|e] eqn:Ea.
    + destruct (collect f l) as [bs'|e] eqn:El.
      * split.
        -- intros [= <-]. constructor; [exact Ea|]. now apply IH.
        -- intros H. inversion H as [|a' b' l' bs'' Hab Hrest]; subst.
           apply IH in Hrest. congruence.
      * split; [discriminate|].
        intros H. inversion H as [|a' b' l' bs'' Hab Hrest]; subst.
        apply IH in Hrest. discriminate.
    + split; [discriminate|].
      intros H. inversion H; subst. congruence.
Qed.

Lemma collect_raises {A B : Type} (f : A -> result B) (l : list A) (a : A)
    (e : exn) :
  In a l -> f a = Raise e -> exists e', collect f l = Raise e'.
Proof.
  induction l as [|a' l IH]; intros Hin Hf; [contradiction|].
  simpl. destruct Hin as [->|Hin].
  - rewrite Hf. now eexists.
  - destruct (f a'); [|now eexists].
    destruct (IH Hin Hf) as [e' ->]. now eexists.
Qed.

Section Handlers.
Context {embedding : Type}.
Variable svc : services embedding.

Lemma strings_of_non_string (context : list value) (v : value) :
  In v context -> (forall s, v <> PyStr s) ->
  exists msg, strings_of context = Raise (TypeError msg).
Proof.
  induction context as [|c context IH]; intros Hin Hv; [contradiction|].
  destruct Hin as [->|Hin].
  - destruct v; simpl; try (now eexists). now destruct (Hv s).
  - destruct c; simpl; try (now eexists).
    destruct (IH Hin Hv) as [msg ->]. now eexists.
Qed.

(** get_embeddings on a non-empty list makes exactly one request, with
    the texts as given and the configured model, and hands back what the
    service answered: its vectors, or its exception unchanged. *)
Theorem embeddings_pass_through (texts : list value) :
  texts <> [] ->
  get_embeddings svc texts
  = (embeddings_create svc texts EMBEDDING_MODEL,
     [EmbeddingsCreate texts EMBEDDING_MODEL]).
Proof.
  intros Hne. destruct texts as [|t texts]; [contradiction|].
  unfold get_embeddings, try_except, remote, raise.
  destruct (embeddings_create svc (t :: texts) EMBEDDING_MODEL); reflexivity.
Qed.

(** get_chat_completion with a context of strings makes exactly one
    request, whose system prompt holds the context joined by the
    separator and whose user message is the query, and hands back what
    the service answered; a context item that is not a string raises a
    TypeError before any request is made. *)
Theorem chat_completion_one_call (query : value) (context : list value) :
  (forall parts,
     strings_of context = Ok parts ->
     let prompt := system_prompt (PyStr.join context_separator parts) in
     get_chat_completion svc query context
     = (chat_completions_create svc GENERATION_MODEL prompt query,
        [ChatCompletionsCreate GENERATION_MODEL prompt query])) /\
  (forall v,
     In v context -> (forall s, v <> PyStr s) ->
     exists msg,
       get_chat_completion svc query context = (Raise (TypeError msg), [])).
Proof.
  split.
  - intros parts Hparts prompt. unfold get_chat_completion, lift.
    rewrite Hparts. cbn [bind]. fold prompt.
    unfold try_except, remote, raise.
    destruct (chat_completions_create svc GENERATION_MODEL prompt query);
      reflexivity.
  - intros v Hin Hv.
    destruct (strings_of_non_string context v Hin Hv) as [msg Hmsg].
    exists msg. unfold get_chat_completion, lift. rewrite Hmsg. reflexivity.
Qed.

(** get_similar_documents never raises: when the index cannot be reached
    it returns no document without issuing a query, when the query errors
    it returns no document, and otherwise it returns the matches of one
    query. *)
Theorem retrieval_never_raises (e : embedding) (top_k : Z) (ns : string) :
  (exists docs, fst (get_similar_documents svc e top_k ns) = Ok docs) /\
  (forall err,
     pinecone_index svc = Raise err ->
     get_similar_documents svc e top_k ns = (Ok [], [PineconeIndex])) /\
  (forall err,
     pinecone_index svc = Ok tt ->
     index_query svc e top_k ns = Raise err ->
     get_similar_documents svc e top_k ns
     = (Ok [], [PineconeIndex; IndexQuery e top_k ns])) /\
  (forall docs,
     pinecone_index svc = Ok tt ->
     index_query svc e top_k ns = Ok docs ->
     get_similar_documents svc e top_k ns
     = (Ok docs, [PineconeIndex; IndexQuery e top_k ns])).
Proof.
  unfold get_similar_documents, get_index, bind, try_except, remote, ret.
  split; [|split; [|split]].
  - destruct (pinecone_index svc); simpl; [|now exists []].
    destruct (index_query svc e top_k ns) as [docs|err]; simpl;
      [now exists docs|now exists []].
  - intros err ->. reflexivity.
  - intros err -> ->. reflexivity.
  - intros docs -> ->. reflexivity.
Qed.

Ltac run_handler :=
  cbn [bind lift ret raise try_except first_embedding fst snd app
       after_generation].

(** The FastAPI handler never raises past its boundary: whatever the
    services do, it answers either 200 with an answer and its context or
    500 with a detail field holding "An error occurred: " and the text of
    the exception. *)
Theorem chat_always_responds (question : string) :
  exists r,
    fst (chat svc question) = Ok r /\
    ((exists answer context, r = answered answer context) \/
     (exists e, r = server_error "detail" e)).
Proof.
  unfold chat.
  destruct (get_embeddings svc [PyStr question]) as [[[|e es]|err] t1];
    run_handler; try (eexists; split; [reflexivity|right; eexists; reflexivity]).
  destruct (get_similar_documents svc e 5 "") as [[[|doc docs]|err] t2];
    run_handler; try (eexists; split; [reflexivity|right; eexists; reflexivity]).
  { eexists. split; [reflexivity|]. left. now exists fallback_answer, []. }
  destruct (collect metadata_text (doc :: docs)) as [texts|err];
    run_handler; try (eexists; split; [reflexivity|right; eexists; reflexivity]).
  destruct (get_chat_completion svc (PyStr question) texts) as [[answer|err] t3];
    run_handler.
  - eexists. split; [reflexivity|]. left. now exists answer, texts.
  - eexists. split; [reflexivity|]. right. now exists err.
Qed.

(** The Flask handler never raises past its boundary either: it answers
    400 for a missing question, 200 with an answer and its context, or
    500 with an error field holding "An error occurred: " and the text of
    the exception; this includes a body that is not JSON. *)
Theorem flask_chat_always_responds (get_json : result value) :
  exists r,
    fst (flask_chat svc get_json) = Ok r /\
    (r = missing_question_response \/
     (exists answer context, r = answered answer context) \/
     (exists e, r = server_error "error" e)).
Proof.
  unfold flask_chat.
  destruct get_json as [data|err]; run_handler;
    try (eexists; split; [reflexivity|right; right; eexists; reflexivity]).
  destruct (question_missing data) as [[|]|err]; run_handler;
    try (eexists; split; [reflexivity|right; right; eexists; reflexivity]).
  { eexists. split; [reflexivity|]. now left. }
  destruct (getitem data "question") as [q|err]; run_handler;
    try (eexists; split; [reflexivity|right; right; eexists; reflexivity]).
  destruct (get_embeddings svc [q]) as [[[|e es]|err] t1];
    run_handler;
    try (eexists; split; [reflexivity|right; right; eexists; reflexivity]).
  destruct (get_similar_documents svc e 5 "") as [[[|doc docs]|err] t2];
    run_handler;
    try (eexists; split; [reflexivity|right; right; eexists; reflexivity]).
  { eexists. split; [reflexivity|]. right. left. now exists fallback_answer, []. }
  destruct (collect metadata_get_text (doc :: docs)) as [texts|err];
    run_handler;
    try (eexists; split; [reflexivity|right; right; eexists; reflexivity]).
  destruct (get_chat_completion svc q texts) as [[answer|err] t3];
    run_handler.
  - eexists. split; [reflexivity|]. right. left. now exists answer, texts.
  - eexists. split; [reflexivity|]. right. right. now exists err.
Qed.

(** A body that is not a JSON object never reaches the services: the
    Flask handler makes no call and answers 400 or 500 (a body that is
    not JSON, a number, a list or a string containing "question" give
    500). *)
Theorem flask_non_object_body (get_json : result value) :
  (forall items, get_json <> Ok (PyDict items)) ->
  snd (flask_chat svc get_json) = [] /\
  (status_of (flask_chat svc get_json) = Some 400 \/
   status_of (flask_chat svc get_json) = Some 500).
Proof.
  intros Hnot. unfold flask_chat, status_of.
  destruct get_json as [data|err]; run_handler; [|split; [reflexivity|now right]].
  destruct data as [| b | n | s | l | items];
    try (now destruct (Hnot items));
    unfold question_missing; cbn [truthy negb contains getitem].
  - split; [reflexivity|now left].
  - destruct b; run_handler; split; try reflexivity; [now right|now left].
  - destruct (n =? 0)%Z; run_handler; split; try reflexivity;
      [now left|now right].
  - destruct (s =? "")%string; cbn [negb]; run_handler;
      [split; [reflexivity|now left]|].
    destruct (index 0 "question" s); cbn [negb]; run_handler;
      split; try reflexivity; [now right|now left].
  - destruct l as [|v l]; cbn [negb]; run_handler;
      [split; [reflexivity|now left]|].
    destruct (existsb (is_str "question") (v :: l)); cbn [negb]; run_handler;
      split; try reflexivity; [now right|now left].
Qed.

(** A failure of the embedding service is answered 500 by both handlers,
    with the text of the exception, and nothing is retrieved or
    generated. *)
Theorem embedding_failure_is_500 (q : value) (err : exn)
    (t : list (call embedding)) :
  get_embeddings svc [q] = (Raise err, t) ->
  (forall question, q = PyStr question ->
     chat svc question = (Ok (server_error "detail" err), t)) /\
  (forall data,
     question_missing data = Ok false ->
     getitem data "question" = Ok q ->
     flask_chat svc (Ok data) = (Ok (server_error "error" err), t)).
Proof.
  intros H. split.
  - intros question ->. unfold chat. rewrite H. run_handler.
    now rewrite app_nil_r.
  - intros data H0 Hq. unfold flask_chat, lift. cbn [bind].
    rewrite H0. cbn [bind]. rewrite Hq. cbn [bind]. rewrite H. run_handler.
    now rewrite app_nil_r.
Qed.

(** An embedding service that answers with no vector makes
    [embeddings[0]] fail: both handlers answer 500 with "list index out of
    range" and the store is not queried. *)
Theorem empty_embedding_answer_is_500 (q : value) (t : list (call embedding)) :
  get_embeddings svc [q] = (Ok [], t) ->
  (forall question, q = PyStr question ->
     chat svc question
     = (Ok (server_error "detail" (IndexError "list index out of range")), t)) /\
  (forall data,
     question_missing data = Ok false ->
     getitem data "question" = Ok q ->
     flask_chat svc (Ok data)
     = (Ok (server_error "error" (IndexError "list index out of range")), t)).
Proof.
  intros H. split.
  - intros question ->. unfold chat. rewrite H. run_handler.
    now rewrite !app_nil_r.
  - intros data H0 Hq. unfold flask_chat, lift. cbn [bind].
    rewrite H0. cbn [bind]. rewrite Hq. cbn [bind]. rewrite H. run_handler.
    now rewrite !app_nil_r.
Qed.

(** With documents retrieved that all carry a text, the FastAPI handler
    calls get_chat_completion once with the question and the texts in
    the order of the matches; it answers 200 with the generated text and
    those texts, or 500 when the generation raises. *)
Theorem chat_with_documents (question : string) (e : embedding)
    (es : list embedding) (docs : list (scored_vector))
    (texts : list value) (t1 t2 : list (call embedding)) :
  get_embeddings svc [PyStr question] = (Ok (e :: es), t1) ->
  get_similar_documents svc e 5 "" = (Ok docs, t2) ->
  docs <> [] ->
  Forall2 (fun doc text =>
             exists items,
               metadata doc = Some items /\ dict_get "text" items = Some text)
          docs texts ->
  let generation := get_chat_completion svc (PyStr question) texts in
  chat svc question
  = (Ok (after_generation "detail" (fst generation) texts),
     (t1 ++ t2 ++ snd generation)%list).
Proof.
  intros H1 H2 Hne Htexts generation.
  assert (Hc : collect metadata_text docs = Ok texts).
  { apply collect_Forall2. eapply Forall2_impl; [|exact Htexts].
    intros doc text (items & Hm & Ht). unfold metadata_text, getitem.
    now rewrite Hm, Ht. }
  unfold chat. rewrite H1. unfold bind at 1. cbn [lift first_embedding bind].
  rewrite H2. destruct docs as [|doc docs]; [contradiction|].
  cbn [bind lift]. rewrite Hc. cbn [bind]. fold generation.
  destruct generation as [[answer|err] t3]; run_handler;
    now rewrite ?app_nil_r, ?app_assoc.
Qed.

(** The Flask handler, with documents retrieved whose metadata is
    present: the context holds, in the order of the matches, each text,
    and the empty string for a match without one; get_chat_completion is
    called once with it, and the answer is 200 with the generated text and
    that context, or 500 when the generation raises. *)
Theorem flask_chat_with_documents (data q : value) (e : embedding)
    (es : list embedding) (docs : list scored_vector)
    (texts : list value) (t1 t2 : list (call embedding)) :
  question_missing data = Ok false ->
  getitem data "question" = Ok q ->
  get_embeddings svc [q] = (Ok (e :: es), t1) ->
  get_similar_documents svc e 5 "" = (Ok docs, t2) ->
  docs <> [] ->
  Forall2 (fun doc text =>
             exists items,
               metadata doc = Some items /\ text = text_or_empty items)
          docs texts ->
  let generation := get_chat_completion svc q texts in
  flask_chat svc (Ok data)
  = (Ok (after_generation "error" (fst generation) texts),
     (t1 ++ t2 ++ snd generation)%list).
Proof.
  intros H0 Hq H1 H2 Hne Htexts generation.
  assert (Hc : collect metadata_get_text docs = Ok texts).
  { apply collect_Forall2. eapply Forall2_impl; [|exact Htexts].
    intros doc text (items & Hm & ->). unfold metadata_get_text, text_or_empty.
    rewrite Hm. now destruct (dict_get "text" items). }
  unfold flask_chat, lift. cbn [bind]. rewrite H0. cbn [bind].
  rewrite Hq. cbn [bind]. rewrite H1. cbn [first_embedding bind].
  rewrite H2. destruct docs as [|doc docs]; [contradiction|].
  cbn [bind]. rewrite Hc. cbn [bind]. fold generation.
  destruct generation as [[answer|err] t3]; run_handler;
    now rewrite ?app_nil_r, ?app_assoc.
Qed.

(** The two handlers differ on a match whose metadata has no text: the
    FastAPI handler answers 500 and never calls the generation. *)
Theorem chat_missing_text_is_500 (question : string) (e : embedding)
    (es : list embedding) (docs : list scored_vector) (doc : scored_vector)
    (items : list (string * value)) (t1 t2 : list (call embedding)) :
  get_embeddings svc [PyStr question] = (Ok (e :: es), t1) ->
  get_similar_documents svc e 5 "" = (Ok docs, t2) ->
  In doc docs ->
  metadata doc = Some items ->
  dict_get "text" items = None ->
  exists err,
    chat svc question = (Ok (server_error "detail" err), (t1 ++ t2)%list).
Proof.
  intros H1 H2 Hin Hm Ht.
  assert (Hf : metadata_text doc = Raise (KeyError "text")).
  { unfold metadata_text, getitem. now rewrite Hm, Ht. }
  destruct (collect_raises metadata_text docs doc _ Hin Hf) as [err Herr].
  exists err. unfold chat. rewrite H1. unfold bind at 1.
  cbn [lift first_embedding bind]. rewrite H2.
  destruct docs as [|doc' docs]; [contradiction|].
  cbn [bind lift]. rewrite Herr. run_handler.
  now rewrite ?app_nil_r.
Qed.

End Handlers.

(** *** Concrete requests *)

Lemma embeddings_pass_through_witness :
  [PyStr "q"] <> [] /\
  get_embeddings Samples.no_match [PyStr "q"]
  = (Ok [[1; 2; 3]], [Samples.question_embedding_call]).
Proof.
  assert (H : [PyStr "q"] <> []) by discriminate.
  split; [exact H|].
  exact (embeddings_pass_through Samples.no_match [PyStr "q"] H).
Defined.

Lemma flask_non_object_body_witness :
  (forall items, Ok (PyList [PyStr "question"]) <> Ok (PyDict items)) /\
  snd (flask_chat Samples.no_match (Ok (PyList [PyStr "question"]))) = [] /\
  status_of (flask_chat Samples.no_match (Ok (PyList [PyStr "question"])))
  = Some 500.
Proof.
  assert (H : forall items, Ok (PyList [PyStr "question"]) <> Ok (PyDict items))
    by (intros items; discriminate).
  split; [exact H|].
  split; [|reflexivity].
  exact (proj1 (flask_non_object_body Samples.no_match
                  (Ok (PyList [PyStr "question"])) H)).
Defined.

Lemma embedding_failure_is_500_witness :
  get_embeddings MoreSamples.embedding_down [PyStr "q"]
  = (Raise (ApiError "rate limit exceeded"), [Samples.question_embedding_call]) /\
  chat MoreSamples.embedding_down "q"
  = (Ok (server_error "detail" (ApiError "rate limit exceeded")),
     [Samples.question_embedding_call]).
Proof.
  split; [reflexivity|].
  exact (proj1 (embedding_failure_is_500 MoreSamples.embedding_down (PyStr "q")
                  (ApiError "rate limit exceeded")
                  [Samples.question_embedding_call] eq_refl) "q" eq_refl).
Defined.

Lemma empty_embedding_answer_is_500_witness :
  get_embeddings MoreSamples.embedding_empty [PyStr "q"]
  = (Ok [], [Samples.question_embedding_call]) /\
  chat MoreSamples.embedding_empty "q"
  = (Ok (server_error "detail" (IndexError "list index out of range")),
     [Samples.question_embedding_call]).
Proof.
  split; [reflexivity|].
  exact (proj1 (empty_embedding_answer_is_500 MoreSamples.embedding_empty
                  (PyStr "q") [Samples.question_embedding_call] eq_refl)
           "q" eq_refl).
Defined.

Lemma stored_chunk_text :
  Forall2 (fun (doc : scored_vector) text =>
             exists items,
               metadata doc = Some items /\ dict_get "text" items = Some text)
          [Samples.stored_chunk] [PyStr "some text"].
Proof.
  constructor; [|constructor]. eexists. split; reflexivity.
Defined.

Lemma chat_with_documents_witness :
  get_embeddings MoreSamples.one_match [PyStr "q"]
  = (Ok [[1; 2; 3]], [Samples.question_embedding_call]) /\
  get_similar_documents MoreSamples.one_match [1; 2; 3] 5 ""
  = (Ok [Samples.stored_chunk], [PineconeIndex; MoreSamples.question_query]) /\
  [Samples.stored_chunk] <> [] /\
  fst (chat MoreSamples.one_match "q")
  = Ok (answered "an answer" [PyStr "some text"]).
Proof.
  split; [reflexivity|]. split; [reflexivity|].
  assert (Hne : [Samples.stored_chunk] <> []) by discriminate.
  split; [exact Hne|].
  rewrite (chat_with_documents MoreSamples.one_match "q" [1; 2; 3] []
             [Samples.stored_chunk] [PyStr "some text"]
             [Samples.question_embedding_call]
             [PineconeIndex; MoreSamples.question_query]
             eq_refl eq_refl Hne stored_chunk_text).
  reflexivity.
Defined.

Lemma bare_match_texts :
  Forall2 (fun (doc : scored_vector) text =>
             exists items,
               metadata doc = Some items /\ text = text_or_empty items)
          [Samples.stored_chunk; MoreSamples.bare_chunk]
          [PyStr "some text"; PyStr ""].
Proof.
  constructor; [|constructor; [|constructor]]; eexists; split; reflexivity.
Defined.

Lemma flask_chat_with_documents_witness :
  question_missing (PyDict [("question", PyStr "q")]) = Ok false /\
  getitem (PyDict [("question", PyStr "q")]) "question" = Ok (PyStr "q") /\
  get_similar_documents MoreSamples.bare_match [1; 2; 3] 5 ""
  = (Ok [Samples.stored_chunk; MoreSamples.bare_chunk],
     [PineconeIndex; MoreSamples.question_query]) /\
  fst (flask_chat MoreSamples.bare_match (Ok (PyDict [("question", PyStr "q")])))
  = Ok (answered "an answer" [PyStr "some text"; PyStr ""]).
Proof.
  split; [reflexivity|]. split; [reflexivity|]. split; [reflexivity|].
  assert (Hne : [Samples.stored_chunk; MoreSamples.bare_chunk] <> [])
    by discriminate.
  rewrite (flask_chat_with_documents MoreSamples.bare_match
             (PyDict [("question", PyStr "q")]) (PyStr "q") [1; 2; 3] []
             [Samples.stored_chunk; MoreSamples.bare_chunk]
             [PyStr "some text"; PyStr ""]
             [Samples.question_embedding_call]
             [PineconeIndex; MoreSamples.question_query]
             eq_refl eq_refl eq_refl eq_refl Hne bare_match_texts).
  reflexivity.
Defined.

Lemma chat_missing_text_is_500_witness :
  In MoreSamples.bare_chunk [Samples.stored_chunk; MoreSamples.bare_chunk] /\
  metadata MoreSamples.bare_chunk = Some [("chunk_id", PyInt 1)] /\
  dict_get "text" [("chunk_id", PyInt 1)] = None /\
  exists err,
    chat MoreSamples.bare_match "q"
    = (Ok (server_error "detail" err),
       [Samples.question_embedding_call; PineconeIndex;
        MoreSamples.question_query]).
Proof.
  assert (Hin : In MoreSamples.bare_chunk
                  [Samples.stored_chunk; MoreSamples.bare_chunk])
    by (right; left; reflexivity).
  split; [exact Hin|]. split; [reflexivity|]. split; [reflexivity|].
  exact (chat_missing_text_is_500 MoreSamples.bare_match "q" [1; 2; 3] []
           [Samples.stored_chunk; MoreSamples.bare_chunk] MoreSamples.bare_chunk
           [("chunk_id", PyInt 1)] [Samples.question_embedding_call]
           [PineconeIndex; MoreSamples.question_query]
           eq_refl eq_refl Hin eq_refl eq_refl).
Defined.

End RagExtras.

(** ** Index management, health checks and ingestion *)

Module OpsExtras.

Import Py Ops.
Open Scope string_scope.
Open Scope list_scope.

Section World.
Context {embedding : Type}.
Variable w : world embedding.
Variable cfg : config.

(** *** What a computation adds to the history *)

Lemma only_adds_ret {A : Type} (P : event embedding -> bool) (a : A) :
  only_adds P (ret a).
Proof. intros h r h' [= <- <-]. exists []. now rewrite app_nil_r. Qed.

Lemma only_adds_raise {A : Type} (P : event embedding -> bool) (e : exn) :
  only_adds P (@raise embedding A e).
Proof. intros h r h' [= <- <-]. exists []. now rewrite app_nil_r. Qed.

Lemma only_adds_lift {A : Type} (P : event embedding -> bool) (x : result A) :
  only_adds P (lift x).
Proof. intros h r h' [= <- <-]. exists []. now rewrite app_nil_r. Qed.

Lemma only_adds_bind {A B : Type} (P : event embedding -> bool)
    (m : @IO embedding A) (k : A -> @IO embedding B) :
  only_adds P m -> (forall a, only_adds P (k a)) -> only_adds P (bind m k).
Proof.
  intros Hm Hk h r h'. unfold bind.
  destruct (m h) as [[[a|e] h1]|] eqn:E; [| |discriminate].
  - intros Hrun. destruct (Hm _ _ _ E) as (n1 & -> & H1).
    destruct (Hk a _ _ _ Hrun) as (n2 & -> & H2).
    exists (n1 ++ n2)%list. rewrite app_assoc, forallb_app, H1, H2. now split.
  - intros [= <- <-]. exact (Hm _ _ _ E).
Qed.

Lemma only_adds_try {A : Type} (P : event embedding -> bool)
    (m : @IO embedding A) (handler : exn -> @IO embedding A) :
  only_adds P m -> (forall e, only_adds P (handler e)) ->
  only_adds P (try_except m handler).
Proof.
  intros Hm Hk h r h'. unfold try_except.
  destruct (m h) as [[[a|e] h1]|] eqn:E; [| |discriminate].
  - intros [= <- <-]. exact (Hm _ _ _ E).
  - intros Hrun. destruct (Hm _ _ _ E) as (n1 & -> & H1).
    destruct (Hk e _ _ _ Hrun) as (n2 & -> & H2).
    exists (n1 ++ n2)%list. rewrite app_assoc, forallb_app, H1, H2. now split.
Qed.

Lemma only_adds_perform {A : Type} (P : event embedding -> bool)
    (ev : event embedding) (answer : environment embedding -> result A) :
  P ev = true -> only_adds P (perform w ev answer).
Proof.
  intros HP h r h' [= <- <-]. exists [ev]. simpl. now rewrite HP.
Qed.

Lemma only_adds_sleep (P : event embedding -> bool) (ms : Z) :
  P (Sleep ms) = true -> only_adds P (sleep ms).
Proof.
  intros HP h r h' [= <- <-]. exists [Sleep ms]. simpl. now rewrite HP.
Qed.

Lemma only_adds_rag {A : Type} (P : event embedding -> bool)
    (f : Rag.services embedding -> Rag.M A) :
  (forall c, P (Remote c) = true) -> only_adds P (rag w f).
Proof.
  intros HP h r h'. unfold rag. destruct (f (api (w h))) as [r0 t].
  intros [= <- <-]. exists (map Remote t). split; [reflexivity|].
  apply forallb_forall. intros ev Hin. apply in_map_iff in Hin as (c & <- & _).
  apply HP.
Qed.

Lemma only_adds_for_each {S : Type} (P : event embedding -> bool)
    (body : S -> Z -> @IO embedding S) (items : list Z) :
  (forall s i, only_adds P (body s i)) ->
  forall s, only_adds P (for_each body s items).
Proof.
  intros Hbody. induction items as [|i items IH]; intros s; simpl.
  - apply only_adds_ret.
  - apply only_adds_bind; [apply Hbody|]. intros s'. apply IH.
Qed.

Lemma only_adds_weaken {A : Type} (P Q : event embedding -> bool) (m : @IO embedding A) :
  (forall ev, P ev = true -> Q ev = true) -> only_adds P m -> only_adds Q m.
Proof.
  intros HPQ Hm h r h' Hrun. destruct (Hm _ _ _ Hrun) as (new & -> & Hnew).
  exists new. split; [reflexivity|].
  apply forallb_forall. intros ev Hin. apply HPQ.
  eapply forallb_forall in Hnew; eauto.
Qed.

(** *** pinecone_manager.py *)

(** init_pinecone creates the index only when its name is not listed: a
    listed index is just opened; an absent one is created with the
    configured dimension, the cosine metric and the configured cloud and
    region, ten seconds are waited, and it is opened; when the creation
    raises, the exception goes to the caller and nothing else is done. *)
Theorem init_pinecone_creates_if_absent (h : list (event embedding))
    (names : list string) :
  list_indexes (w h) = Ok names ->
  let name := PINECONE_INDEX_NAME cfg in
  let create :=
    CreateIndex name (EMBEDDING_MODEL_DIMENSION cfg) "cosine"
      (PINECONE_CLOUD cfg) (PINECONE_REGION cfg) in
  (listed name names = true ->
   init_pinecone w cfg h
   = Some (Rag.pinecone_index (api (w (h ++ [ListIndexes]))),
           h ++ [ListIndexes; Remote Rag.PineconeIndex])) /\
  (listed name names = false ->
   create_index (w (h ++ [ListIndexes])) name (EMBEDDING_MODEL_DIMENSION cfg)
     "cosine" (PINECONE_CLOUD cfg) (PINECONE_REGION cfg) = Ok tt ->
   init_pinecone w cfg h
   = Some (Rag.pinecone_index
             (api (w (h ++ [ListIndexes; create; Sleep 10000]))),
           h ++ [ListIndexes; create; Sleep 10000; Remote Rag.PineconeIndex])) /\
  (forall err,
     listed name names = false ->
     create_index (w (h ++ [ListIndexes])) name (EMBEDDING_MODEL_DIMENSION cfg)
       "cosine" (PINECONE_CLOUD cfg) (PINECONE_REGION cfg) = Raise err ->
     init_pinecone w cfg h = Some (Raise err, h ++ [ListIndexes; create])).
Proof.
  intros Hlist name create. unfold init_pinecone, bind, perform, sleep, ret.
  rewrite Hlist. fold name. split; [|split].
  - intros ->. simpl. now rewrite <- !app_assoc.
  - intros -> Hc. simpl. rewrite Hc. now rewrite <- !app_assoc.
  - intros err -> Hc. simpl. rewrite Hc. now rewrite <- !app_assoc.
Qed.

(** delete_index never raises, and deletes only an index that is listed
    under the configured name: when the listing fails or does not hold
    the name, no deletion is requested; a failing deletion is swallowed. *)
Theorem delete_index_swallows (h : list (event embedding)) :
  let name := PINECONE_INDEX_NAME cfg in
  (exists h', delete_index w cfg h = Some (Ok tt, h')) /\
  (forall err,
     list_indexes (w h) = Raise err ->
     delete_index w cfg h = Some (Ok tt, h ++ [ListIndexes])) /\
  (forall names,
     list_indexes (w h) = Ok names -> listed name names = false ->
     delete_index w cfg h = Some (Ok tt, h ++ [ListIndexes])) /\
  (forall names,
     list_indexes (w h) = Ok names -> listed name names = true ->
     delete_index w cfg h = Some (Ok tt, h ++ [ListIndexes; DeleteIndex name])).
Proof.
  intros name. unfold delete_index, try_except, bind, perform, ret.
  fold name. split; [|split; [|split]].
  - destruct (list_indexes (w h)) as [names|err]; [|now eexists].
    destruct (listed name names); [|now eexists].
    destruct (pc_delete_index (w (h ++ [ListIndexes])) name) as [[]|err];
      now eexists.
  - intros err ->. reflexivity.
  - intros names -> ->. reflexivity.
  - intros names -> ->.
    destruct (pc_delete_index (w (h ++ [ListIndexes])) name) as [[]|err];
      now rewrite <- app_assoc.
Qed.

(** get_index_stats never raises: it returns None without asking for the
    statistics when the index cannot be opened, None when the statistics
    call raises, and the statistics otherwise. *)
Theorem get_index_stats_never_raises (h : list (event embedding)) :
  let h1 := (h ++ [Remote Rag.PineconeIndex])%list in
  (forall err,
     Rag.pinecone_index (api (w h)) = Raise err ->
     get_index_stats w h = Some (Ok None, h1)) /\
  (forall err,
     Rag.pinecone_index (api (w h)) = Ok tt ->
     describe_index_stats (w h1) = Raise err ->
     get_index_stats w h = Some (Ok None, h1 ++ [DescribeIndexStats])) /\
  (forall stats,
     Rag.pinecone_index (api (w h)) = Ok tt ->
     describe_index_stats (w h1) = Ok stats ->
     get_index_stats w h = Some (Ok (Some stats), h1 ++ [DescribeIndexStats])).
Proof.
  intros h1. unfold get_index_stats, bind, rag, Rag.get_index, Rag.try_except,
    Rag.bind, Rag.remote, Rag.ret, try_except, perform, ret.
  split; [|split].
  - intros err ->. reflexivity.
  - intros err -> Hd. simpl. fold h1. now rewrite Hd.
  - intros stats -> Hd. simpl. fold h1. now rewrite Hd.
Qed.

(** Both health checks open the index once and answer from that alone:
    "ok" when it opens, "error" with "Pinecone index not available" when
    it does not.  The answer with the text of an exception is never
    given, since get_index swallows every exception. *)
Theorem health_check_reflects_index (h : list (event embedding)) :
  health_check w h
  = Some (Ok (match Rag.pinecone_index (api (w h)) with
              | Ok _ =>
                  {| status := "ok"; message := "Service is healthy" |}
              | Raise _ =>
                  {| status := "error";
                     message := "Pinecone index not available" |}
              end),
          h ++ [Remote Rag.PineconeIndex]).
Proof.
  unfold health_check, try_except, bind, rag, Rag.get_index, Rag.try_except,
    Rag.bind, Rag.remote, Rag.ret, ret.
  destruct (Rag.pinecone_index (api (w h))) as [[]|err]; simpl;
    now rewrite ?app_nil_r.
Qed.

(** The health check and get_index_stats leave the store as it is: they
    never create or delete an index and never upsert. *)
Theorem monitoring_reads_only :
  only_adds reads_only (health_check w) /\
  only_adds reads_only (get_index_stats w).
Proof.
  split.
  - unfold health_check. apply only_adds_try.
    + apply only_adds_bind; [now apply only_adds_rag|].
      intros [index|]; apply only_adds_ret.
    + intros e. apply only_adds_ret.
  - unfold get_index_stats. apply only_adds_bind; [now apply only_adds_rag|].
    intros [index|]; [|apply only_adds_ret].
    apply only_adds_try.
    + apply only_adds_bind; [now apply only_adds_perform|].
      intros stats. apply only_adds_ret.
    + intros e. apply only_adds_ret.
Qed.

(** *** ingest_data.py *)

Lemma init_pinecone_keeps_index : only_adds keeps_index (init_pinecone w cfg).
Proof.
  unfold init_pinecone.
  apply only_adds_bind; [now apply only_adds_perform|]. intros names.
  apply only_adds_bind; [|intros _; now apply only_adds_perform].
  destruct (negb (listed (PINECONE_INDEX_NAME cfg) names)).
  - apply only_adds_bind; [now apply only_adds_perform|].
    intros _. now apply only_adds_sleep.
  - apply only_adds_ret.
Qed.

Lemma ingest_batch_keeps_index (chunks : list string) (batch_size : Z)
    (vectors : list (vector_record embedding)) (i : Z) :
  only_adds keeps_index (ingest_batch w chunks batch_size vectors i).
Proof.
  unfold ingest_batch.
  apply only_adds_bind; [now apply only_adds_rag|]. intros embeddings.
  apply only_adds_bind; [apply only_adds_lift|]. intros batch_vectors.
  apply only_adds_bind; [now apply only_adds_perform|]. intros _.
  apply only_adds_bind; [now apply only_adds_sleep|]. intros _.
  apply only_adds_ret.
Qed.

(** ingest_text never deletes: whatever the services answer and however
    a run ends, by returning or by an exception in some batch, the
    history has only grown and holds no deletion, so the batches already
    upserted stay in the store. *)
Theorem ingest_text_never_deletes (tok : tokenizer) (fuel : nat)
    (text : string) (chunk_size overlap batch_size : Z) :
  only_adds keeps_index
    (ingest_text w cfg tok fuel text chunk_size overlap batch_size).
Proof.
  intros h r h'. unfold ingest_text.
  destruct (Chunker.split_text_into_chunks tok fuel text chunk_size overlap)
    as [chunks|]; [|discriminate].
  revert h r h'. change (only_adds keeps_index (ingest_chunks w cfg chunks batch_size)).
  unfold ingest_chunks.
  apply only_adds_bind; [apply init_pinecone_keeps_index|]. intros _.
  apply only_adds_bind; [apply only_adds_lift|]. intros starts.
  apply only_adds_bind; [|intros vectors; apply only_adds_ret].
  apply only_adds_for_each. intros vectors i. apply ingest_batch_keeps_index.
Qed.

(** A batch size that is not positive: with 0 the run stops with the
    ValueError of range() once the index is initialised, and with a
    negative size it reports 0 vectors without embedding or upserting
    anything. *)
Theorem ingest_nonpositive_batch_size (chunks : list string) (batch_size : Z)
    (h h1 : list (event embedding)) :
  batch_size <= 0 ->
  init_pinecone w cfg h = Some (Ok tt, h1) ->
  ingest_chunks w cfg chunks batch_size h
  = Some (if (batch_size =? 0)%Z
          then Raise (ValueError "range() arg 3 must not be zero")
          else Ok 0,
          h1).
Proof.
  intros Hb Hinit. unfold ingest_chunks, bind at 1. rewrite Hinit.
  unfold py_range. destruct (Z.eqb_spec batch_size 0) as [E|E]; [reflexivity|].
  destruct (Z.ltb_spec 0 batch_size); [lia|].
  pose proof (PySeqFacts.len_nonneg chunks).
  destruct (Z.ltb_spec (PySeq.len chunks) 0); [lia|]. reflexivity.
Qed.

(** main never raises: every exception of the run is caught at its end.
    When the file does not exist nothing else is done; in particular
    --reset does not delete the index. *)
Theorem main_swallows (tok : tokenizer) (fuel : nat) (args : arguments)
    (h : list (event embedding)) :
  (forall r h', main w cfg tok fuel args h = Some (r, h') -> r = Ok tt) /\
  (path_exists (w h) (file args) = false ->
   main w cfg tok fuel args h = Some (Ok tt, h ++ [PathExists (file args)])).
Proof.
  split.
  - intros r h'. unfold main, try_except.
    match goal with |- context [match ?m h with _ => _ end] =>
      destruct (m h) as [[[[]|e] h1]|] end; unfold ret; congruence.
  - intros Hmissing. unfold main, try_except, bind, perform.
    rewrite Hmissing. reflexivity.
Qed.

(** Without --reset, main never deletes the index. *)
Theorem main_without_reset_keeps_index (tok : tokenizer) (fuel : nat)
    (args : arguments) :
  reset args = false ->
  only_adds keeps_index (main w cfg tok fuel args).
Proof.
  intros Hreset. unfold main. rewrite Hreset.
  apply only_adds_try; [|intros e; apply only_adds_ret].
  apply only_adds_bind; [now apply only_adds_perform|]. intros found.
  destruct (negb found); [apply only_adds_ret|].
  apply only_adds_bind; [apply only_adds_ret|]. intros _.
  apply only_adds_bind.
  - unfold read_file. apply only_adds_try; [now apply only_adds_perform|].
    intros e. apply only_adds_raise.
  - intros text. apply only_adds_bind; [|intros _; apply only_adds_ret].
    apply ingest_text_never_deletes.
Qed.

(** *** A successful run *)




Lemma chunk_records_nil (n : Z) (es : list embedding) :
  chunk_records n [] es = [].
Proof. reflexivity. Qed.













End World.

(** *** Concrete runs *)

Lemma init_pinecone_creates_if_absent_witness :
  list_indexes (OpsSamples.fresh_world []) = Ok [] /\
  listed "rag-chatbot" [] = false /\
  init_pinecone OpsSamples.fresh_world OpsSamples.sample_config []
  = Some (Ok tt,
          [ListIndexes;
           CreateIndex "rag-chatbot" 1536 "cosine" "aws" "us-east-1";
           Sleep 10000; Remote Rag.PineconeIndex]).
Proof.
  split; [reflexivity|]. split; [reflexivity|].
  exact (proj1 (proj2 (init_pinecone_creates_if_absent OpsSamples.fresh_world
                         OpsSamples.sample_config [] [] eq_refl))
           eq_refl eq_refl).
Defined.

Lemma ingest_text_never_deletes_witness :
  exists r h',
    ingest_text OpsSamples.second_upsert_fails OpsSamples.sample_config
      Samples.char_tokenizer 10 (Samples.document 5) 2 0 1 []
    = Some (r, h') /\
    r = Raise (ApiError "rate limited") /\
    exists new, h' = [] ++ new /\ forallb keeps_index new = true.
Proof.
  eexists. eexists. split; [vm_compute; reflexivity|]. split; [reflexivity|].
  eapply (ingest_text_never_deletes OpsSamples.second_upsert_fails
            OpsSamples.sample_config Samples.char_tokenizer 10
            (Samples.document 5) 2 0 1 []).
  vm_compute. reflexivity.
Defined.

Lemma ingest_nonpositive_batch_size_witness :
  -1 <= 0 /\
  init_pinecone OpsSamples.fresh_world OpsSamples.sample_config
    [CreateIndex "rag-chatbot" 1536 "cosine" "aws" "us-east-1"]
  = Some (Ok tt,
          [CreateIndex "rag-chatbot" 1536 "cosine" "aws" "us-east-1";
           ListIndexes; Remote Rag.PineconeIndex]) /\
  ingest_chunks OpsSamples.fresh_world OpsSamples.sample_config
    ["one"; "two"; "three"] (-1)
    [CreateIndex "rag-chatbot" 1536 "cosine" "aws" "us-east-1"]
  = Some (Ok 0,
          [CreateIndex "rag-chatbot" 1536 "cosine" "aws" "us-east-1";
           ListIndexes; Remote Rag.PineconeIndex]).
Proof.
  split; [lia|]. split; [reflexivity|].
  apply (ingest_nonpositive_batch_size OpsSamples.fresh_world
           OpsSamples.sample_config ["one"; "two"; "three"] (-1));
    [lia|reflexivity].
Defined.

Lemma main_without_reset_keeps_index_witness :
  reset MoreSamples.plain_run = false /\
  exists r h',
    main OpsSamples.fresh_world OpsSamples.sample_config
      Samples.char_tokenizer 100 MoreSamples.plain_run []
    = Some (r, h') /\
    r = Ok tt /\
    exists new, h' = [] ++ new /\ forallb keeps_index new = true.
Proof.
  split; [reflexivity|].
  eexists. eexists. split; [vm_compute; reflexivity|]. split; [reflexivity|].
  eapply (main_without_reset_keeps_index OpsSamples.fresh_world
            OpsSamples.sample_config Samples.char_tokenizer 100
            MoreSamples.plain_run eq_refl []).
  vm_compute. reflexivity.
Defined.



End OpsExtras.
